(** * A shallow embedding of the Jenkins job client (package [jenkins])

    The Go package talks to a Jenkins server over HTTP, decodes the loosely
    typed JSON documents it gets back into two records, resolves symbolic
    build identifiers, triggers builds, polls for their completion and
    downloads artifacts.

    The embedding keeps the shape of the Go code:
    - Go's [int] is a 64-bit two's complement integer, written as [Z] with
      the wrap-around spelled out;
    - a decoded [interface{}] is an inductive type with the six dynamic
      types that [encoding/json] produces;
    - [map[string]T] is a [gmap string T]; a map that may be [nil] is an
      [option] of one;
    - a pointer that may be [nil] is an [option]; a Go [error] is an
      [option error];
    - every function that reaches the network, the file system or the clock
      is a computation in a small state monad over a [World]: the answers of
      the outside world are read from oracles, every request is appended to
      a trace, and a run-time panic is an outcome of its own;
    - a slice is a [list]; the nil slice and the empty slice are both [[]];
    - the endless [for] loop of [DoBuild] takes fuel.

    Log output and the closing of response bodies and files are left out:
    no result and no request of the package depends on them. *)

From Stdlib Require Import ZArith String Ascii List Lia SpecFloat.
From stdpp Require Import base option list strings gmap pretty.

Local Open Scope string_scope.
Local Open Scope Z_scope.

Set Warnings "-register-all".

(** ** Go's [int] *)

Module GoInt.

Definition min_int : Z := - 2 ^ 63.
Definition max_int : Z := 2 ^ 63 - 1.

(** Two's complement wrap-around of a mathematical integer. *)
Definition wrap (z : Z) : Z := (z + 2 ^ 63) mod 2 ^ 64 - 2 ^ 63.

Definition add (a b : Z) : Z := wrap (a + b).

Definition in_range (z : Z) : Prop := min_int <= z <= max_int.

(** [int(f)] for a [float64]: the fraction is discarded.  The Go
    specification leaves the result open when the truncated value does
    not fit; the model takes what amd64 produces there, the smallest
    [int]. *)
Definition truncate (f : spec_float) : Z :=
  match f with
  | S754_zero _ => 0
  | S754_finite s m e =>
      let mag := Z.shiftl (Z.pos m) e in
      let z := if s then - mag else mag in
      if (min_int <=? z) && (z <=? max_int) then z else min_int
  | S754_infinity _ | S754_nan => min_int
  end.

(** The [float64] holding a small integer, to write documents down. *)
Definition to_float (z : Z) : spec_float :=
  match z with
  | Z0 => S754_zero false
  | Zpos p => S754_finite false p 0
  | Zneg p => S754_finite true p 0
  end.

(** [strconv.Itoa] *)
Definition Itoa (z : Z) : string := pretty z.

End GoInt.

(** ** Dynamic values: what [encoding/json] stores in an [interface{}] *)

Inductive iface : Type :=
| INil
| IBool (b : bool)
| IFloat64 (f : spec_float)
| IString (s : string)
| ISlice (l : list iface)
| IMap (m : gmap string iface).

(** A [map[string]interface{}] variable; [None] is the [nil] map. *)
Definition jsonmap : Type := option (gmap string iface).

(** [m[k]]: indexing a map, [nil] or not, gives the zero value ([nil]
    interface) for a key that is not there. *)
Definition index (m : jsonmap) (k : string) : iface :=
  match m with
  | Some g => default INil (g !! k)
  | None => INil
  end.

(** Type assertions in their two-result form [v, ok := x.(T)]: the value is
    [T]'s zero value when the dynamic type is another one. *)
Module Assert.

Definition string_ok (v : iface) : string * bool :=
  match v with IString s => (s, true) | _ => ("", false) end.

Definition bool_ok (v : iface) : bool * bool :=
  match v with IBool b => (b, true) | _ => (false, false) end.

Definition float64_ok (v : iface) : spec_float * bool :=
  match v with IFloat64 f => (f, true) | _ => (S754_zero false, false) end.

Definition slice_ok (v : iface) : list iface * bool :=
  match v with ISlice l => (l, true) | _ => ([], false) end.

Definition map_ok (v : iface) : jsonmap * bool :=
  match v with IMap m => (Some m, true) | _ => (None, false) end.

(** The one-result form [x.(T)]: [None] stands for the panic on another
    dynamic type. *)
Definition string_must (v : iface) : option string :=
  match v with IString s => Some s | _ => None end.

Definition bool_must (v : iface) : option bool :=
  match v with IBool b => Some b | _ => None end.

Definition float64_must (v : iface) : option spec_float :=
  match v with IFloat64 f => Some f | _ => None end.

Definition slice_must (v : iface) : option (list iface) :=
  match v with ISlice l => Some l | _ => None end.

Definition map_must (v : iface) : option jsonmap :=
  match v with IMap m => Some (Some m) | _ => None end.

End Assert.

(** ** Package [path] *)

Module path.

Fixpoint split_on (c : ascii) (s : string) : list string :=
  match s with
  | EmptyString => [EmptyString]
  | String a s' =>
      if Ascii.eqb a c then EmptyString :: split_on c s'
      else match split_on c s' with
           | x :: r => String a x :: r
           | [] => [String a EmptyString]
           end
  end.

Fixpoint join_with (sep : string) (l : list string) : string :=
  match l with
  | [] => ""
  | [x] => x
  | x :: r => x +:+ sep +:+ join_with sep r
  end.

Definition rooted (p : string) : bool :=
  match p with String "/"%char _ => true | _ => false end.

(** One element of the path against the elements kept so far (innermost
    first): empty and [.] elements vanish, [..] removes the element
    before it, or stays when there is none and the path is not rooted. *)
Definition clean_step (root : bool) (kept : list string) (elem : string)
  : list string :=
  if String.eqb elem "" || String.eqb elem "." then kept
  else if String.eqb elem ".." then
    match kept with
    | top :: rest =>
        if String.eqb top ".." then elem :: kept else rest
    | [] => if root then [] else [elem]
    end
  else elem :: kept.

(** [path.Clean] *)
Definition Clean (p : string) : string :=
  let root := rooted p in
  let kept := rev (fold_left (clean_step root) (split_on "/" p) []) in
  if root then "/" +:+ join_with "/" kept
  else match kept with [] => "." | _ => join_with "/" kept end.

(** [path.Join]: empty elements are ignored, the rest is joined with
    slashes and cleaned; nothing but empty elements gives the empty
    string. *)
Definition Join (elem : list string) : string :=
  match filter (fun e => e ≠ "") elem with
  | [] => ""
  | l => Clean (join_with "/" l)
  end.

(** [path.Dir]: everything up to the last slash, cleaned. *)
Definition Dir (p : string) : string :=
  match split_on "/" p with
  | [] | [_] => Clean ""
  | l => Clean (join_with "/" (removelast l) +:+ "/")
  end.

End path.

(** ** Errors and panics *)

(** A Go [error] value, by where it was made. *)
Inductive error : Type :=
| errors_New (msg : string)   (* [errors.New] in this package *)
| net_error (msg : string)    (* returned by [net/http] *)
| json_error                  (* returned by [json.Decoder.Decode] *)
| url_error (msg : string)    (* returned by [url.ParseQuery] *)
| url_EscapeError (escape : string)
    (* [url.EscapeError]: the escape that could not be decoded *)
| os_error (msg : string).    (* returned by package [os] *)

Inductive panic : Type :=
| NilDereference        (* field access through a nil pointer *)
| InterfaceConversion.  (* one-result type assertion on another type *)

(** ** Package [net/url]: [ParseQuery] (Go 1.17 and later) *)

Module url.

(** [url.Values] *)
Definition Values : Type := gmap string (list string).

Definition unhex (c : ascii) : option N :=
  let n := N_of_ascii c in
  if ((48 <=? n) && (n <=? 57))%N then Some (n - 48)%N
  else if ((97 <=? n) && (n <=? 102))%N then Some (n - 97 + 10)%N
  else if ((65 <=? n) && (n <=? 70))%N then Some (n - 65 + 10)%N
  else None.

(** [url.QueryUnescape]: [%XY] becomes the byte with that code, [+] a
    space; a [%] not followed by two hexadecimal digits is an error, the
    [url.EscapeError] of the [%] and the up to two bytes after it.  [inl]
    is the decoded string, [inr] the escape of the error. *)
Fixpoint QueryUnescape (s : string) : string + string :=
  match s with
  | EmptyString => inl EmptyString
  | String "%"%char (String a (String b rest)) =>
      match unhex a, unhex b with
      | Some x, Some y =>
          match QueryUnescape rest with
          | inl r => inl (String (ascii_of_N (16 * x + y)) r)
          | inr escape => inr escape
          end
      | _, _ => inr (String "%"%char (String a (String b EmptyString)))
      end
  | String "%"%char rest => inr (String "%"%char rest)
  | String "+"%char rest =>
      match QueryUnescape rest with
      | inl r => inl (String " "%char r)
      | inr escape => inr escape
      end
  | String c rest =>
      match QueryUnescape rest with
      | inl r => inl (String c r)
      | inr escape => inr escape
      end
  end.

(** [strings.Cut] on a one-byte separator. *)
Fixpoint Cut (sep : ascii) (s : string) : string * string :=
  match s with
  | EmptyString => (EmptyString, EmptyString)
  | String a s' =>
      if Ascii.eqb a sep then (EmptyString, s')
      else let '(before, after) := Cut sep s' in (String a before, after)
  end.

Fixpoint Contains (c : ascii) (s : string) : bool :=
  match s with
  | EmptyString => false
  | String a s' => Ascii.eqb a c || Contains c s'
  end.

(** One [&]-separated piece of the query, as the loop of [parseQuery]
    treats it. *)
Definition parse_piece (st : Values * option error) (piece : string)
  : Values * option error :=
  let '(m, err) := st in
  if Contains ";" piece then
    (m, Some (url_error "invalid semicolon separator in query"))
  else if String.eqb piece "" then (m, err)
  else
    let '(key, value) := Cut "=" piece in
    match QueryUnescape key with
    | inr escape =>
        (m, match err with None => Some (url_EscapeError escape)
                      | Some _ => err end)
    | inl key =>
        match QueryUnescape value with
        | inr escape =>
            (m, match err with None => Some (url_EscapeError escape)
                          | Some _ => err end)
        | inl value => (<[key := (default [] (m !! key) ++ [value])%list]> m, err)
        end
    end.

Definition ParseQuery (query : string) : Values * option error :=
  fold_left parse_piece (path.split_on "&" query) (∅, None).

End url.

(** ** The outside world *)

(** The body of an HTTP response, by what [json.Decoder] finds in it: the
    text of one JSON value, given as the Go value it decodes to, or bytes
    that are no JSON (an artifact, an error page). *)
Inductive Body : Type :=
| JsonBody (v : iface)
| RawBody (bytes : string).

Inductive http_result : Type :=
| HttpFail (msg : string)                 (* no response: [err != nil] *)
| HttpResponse (status : Z) (body : Body).

(** What the package asks of the outside, in the order it asks. *)
Inductive Event : Type :=
| EvGet (theurl : string)                    (* [http.Get] *)
| EvPostForm (theurl : string) (form : url.Values)   (* [http.PostForm] *)
| EvMkdirAll (dir : string)                  (* [os.MkdirAll] *)
| EvCreate (file : string)                   (* [os.Create] *)
| EvCopy (file : string) (src : Body)        (* [io.Copy] into a file *)
| EvSleep (ms : Z).                          (* [time.Sleep] *)

(** The world a call runs in: the package variable [JENKINS_SERVER], the
    answers of the server and of the file system (which may depend on how
    many requests came before, and on the request), and the requests made
    so far, oldest first. *)
Record World : Type := mkWorld {
  JENKINS_SERVER : string;
  on_Get : nat -> string -> http_result;
  on_PostForm : nat -> string -> url.Values -> http_result;
  on_MkdirAll : nat -> string -> option string;
  on_Create : nat -> string -> option string;
  trace : list Event
}.

Definition DEFAULT_SERVER : string := "alfred-jenkins.sv2:8080".

Definition emit (e : Event) (w : World) : World :=
  mkWorld (JENKINS_SERVER w) (on_Get w) (on_PostForm w) (on_MkdirAll w)
          (on_Create w) (trace w ++ [e])%list.

Definition now (w : World) : nat := length (trace w).

(** ** The monad of the package's functions *)

Inductive outcome (A : Type) : Type :=
| Ret (a : A)            (* the call returned [a] *)
| Panicked (p : panic)   (* the call panicked *)
| Running.               (* the fuel ran out inside the loop *)
Arguments Ret {A} a.
Arguments Panicked {A} p.
Arguments Running {A}.

Definition M (A : Type) : Type := World -> outcome A * World.

Definition ret {A} (a : A) : M A := fun w => (Ret a, w).

Definition bind {A B} (m : M A) (k : A -> M B) : M B :=
  fun w =>
    match m w with
    | (Ret a, w') => k a w'
    | (Panicked p, w') => (Panicked p, w')
    | (Running, w') => (Running, w')
    end.

Definition throw {A} (p : panic) : M A := fun w => (Panicked p, w).

Notation "x <- c1 ;; c2" := (bind c1 (fun x => c2))
  (at level 20, c1 at level 99, c2 at level 200).
Notation "' pat <- c1 ;; c2" :=
  (bind c1 (fun x => match x with pat => c2 end))
  (at level 20, pat pattern, c1 at level 99, c2 at level 200).

(** [p.f] on a pointer [p]: a nil pointer panics. *)
Definition deref {A} (p : option A) : M A :=
  match p with Some a => ret a | None => throw NilDereference end.

Module io.
Definition server : M string := fun w => (Ret (JENKINS_SERVER w), w).

Definition http_Get (theurl : string) : M http_result :=
  fun w => (Ret (on_Get w (now w) theurl), emit (EvGet theurl) w).

Definition http_PostForm (theurl : string) (form : url.Values)
  : M http_result :=
  fun w => (Ret (on_PostForm w (now w) theurl form),
            emit (EvPostForm theurl form) w).

Definition os_MkdirAll (dir : string) : M (option error) :=
  fun w => (Ret (os_error <$> on_MkdirAll w (now w) dir),
            emit (EvMkdirAll dir) w).

Definition os_Create (file : string) : M (option error) :=
  fun w => (Ret (os_error <$> on_Create w (now w) file),
            emit (EvCreate file) w).

Definition Copy (file : string) (src : Body) : M unit :=
  fun w => (Ret tt, emit (EvCopy file src) w).

Definition time_Sleep (ms : Z) : M unit :=
  fun w => (Ret tt, emit (EvSleep ms) w).
End io.

(** ** The two records *)

Record JenkinsInfo : Type := mkJenkinsInfo {
  Name : string;
  Description : string;
  Url : string;
  Buildable : bool;
  InQueue : bool;
  LastBuild : Z;
  LastBuildUrl : string;
  LastStableBuild : Z;
  LastStableBuildUrl : string
}.

(** The build record lives in a module of its own: it shares the field
    names [Name] and [Url] with the job record. *)
Module Build.
Record JenkinsBuildInfo : Type := mkJenkinsBuildInfo {
  Name : string;
  ID : Z;
  Artifacts : gmap string string;
  Building : bool;
  Duration : spec_float;
  EstimatedDuration : spec_float;
  Result : string;
  Timestamp : spec_float;
  Url : string
}.
End Build.
Export Build (JenkinsBuildInfo, mkJenkinsBuildInfo).

(** ** Talking to the server *)

(** [getRemote]: the body of a 200 response, an error for anything else. *)
Definition getRemote (theurl : string) : M (option Body * option error) :=
  resp <- io.http_Get theurl ;;
  match resp with
  | HttpFail msg => ret (None, Some (net_error msg))
  | HttpResponse status body =>
      if negb (status =? 200) then
        ret (None, Some (errors_New ("Bad status: " +:+ GoInt.Itoa status
                                       +:+ " from " +:+ theurl)))
      else ret (Some body, None)
  end.

(** The address [get] builds: the build number is part of it only when it
    is positive. *)
Definition api_url (server name : string) (id : Z) : string :=
  let nameAndID := if 0 <? id then path.Join [name; GoInt.Itoa id] else name in
  "http://" +:+ path.Join [server; "job"; nameAndID; "api"; "json"].

(** [jsonDecoder.Decode(&retVal)] with [retVal] a fresh empty map: an
    object fills the map, [null] sets it to nil, and any other value or
    text that is no JSON is an error. *)
Definition Decode (body : Body) : jsonmap * option error :=
  match body with
  | JsonBody (IMap m) => (Some m, None)
  | JsonBody INil => (None, None)
  | JsonBody _ => (Some ∅, Some json_error)
  | RawBody _ => (Some ∅, Some json_error)
  end.

Definition get (name : string) (id : Z) : M (jsonmap * option error) :=
  server <- io.server ;;
  let theurl := api_url server name id in
  '(resp, err) <- getRemote theurl ;;
  match err with
  | Some e => ret (None, Some e)
  | None =>
      body <- deref resp ;;
      let '(retVal, errJson) := Decode body in
      match errJson with
      | Some e => ret (None, Some e)
      | None => ret (retVal, None)
      end
  end.

(** The address [post] builds. *)
Definition trigger_url (server name : string) : string :=
  "http://" +:+ path.Join [server; "job"; name; "buildWithParameters"]
    +:+ "?token=" +:+ name +:+ "-token".

Definition post (name action params : string) : M (option error) :=
  server <- io.server ;;
  let theurl := trigger_url server name in
  let '(form, err) := url.ParseQuery params in
  match err with
  | Some e => ret (Some e)
  | None =>
      resp <- io.http_PostForm theurl form ;;
      match resp with
      | HttpFail msg => ret (Some (net_error msg))
      | HttpResponse _ _ => ret None
      end
  end.

(** ** Decoding a job document: [GetInfo] *)

(** The body of [GetInfo] after the fetch: every field is read with a
    two-result type assertion whose second result is dropped. *)
Definition decode_JenkinsInfo (json : jsonmap) : JenkinsInfo :=
  let name := fst (Assert.string_ok (index json "name")) in
  let description := fst (Assert.string_ok (index json "description")) in
  let url := fst (Assert.string_ok (index json "url")) in
  let buildable := fst (Assert.bool_ok (index json "buildable")) in
  let inQueue := fst (Assert.bool_ok (index json "inQueue")) in
  let lastBuild := index json "lastBuild" in
  let '(lastBuildNum, lastBuildUrl) :=
    match lastBuild with
    | INil => (0, "")
    | _ =>
        let lastBuildSafe := fst (Assert.map_ok lastBuild) in
        let numF64 := fst (Assert.float64_ok (index lastBuildSafe "number")) in
        (GoInt.truncate numF64,
         fst (Assert.string_ok (index lastBuildSafe "url")))
    end in
  let lastStableBuild := index json "lastStableBuild" in
  let '(lastStableBuildNum, lastStableBuildUrl) :=
    match lastStableBuild with
    | INil => (0, "")
    | _ =>
        let lastStableBuildSafe := fst (Assert.map_ok lastStableBuild) in
        let numF64 :=
          fst (Assert.float64_ok (index lastStableBuildSafe "number")) in
        (GoInt.truncate numF64,
         fst (Assert.string_ok (index lastStableBuildSafe "url")))
    end in
  mkJenkinsInfo name description url buildable inQueue
                lastBuildNum lastBuildUrl lastStableBuildNum lastStableBuildUrl.

Definition is_nil {A} (p : option A) : bool :=
  match p with None => true | Some _ => false end.

Definition GetInfo (name : string) : M (option JenkinsInfo * option error) :=
  '(json, err) <- get name (-1) ;;
  if negb (is_nil err) || is_nil json then ret (None, err)
  else ret (Some (decode_JenkinsInfo json), None).

(** ** Resolving a build identifier: [sanitizeID] *)

Definition sanitizeID (name : string) (id : Z) : M (Z * option error) :=
  if id =? -1 then
    '(info, err) <- GetInfo name ;;
    match err with
    | Some e => ret (id, Some e)
    | None =>
        info <- deref info ;;
        if LastBuild info =? 0 then
          ret (id, Some (errors_New "no build available"))
        else ret (LastBuild info, None)
    end
  else if id =? -2 then
    '(info, err) <- GetInfo name ;;
    match err with
    | Some e => ret (id, Some e)
    | None =>
        info <- deref info ;;
        if LastStableBuild info =? 0 then
          ret (id, Some (errors_New "no stable build available"))
        else ret (LastStableBuild info, None)
    end
  else ret (id, None).

(** ** Decoding a build document: [GetBuildInfo] *)

(** [x.(T)] in its one-result form panics where the two-result form
    reports [false]. *)
Definition must {A} (x : option A) : M A :=
  match x with Some a => ret a | None => throw InterfaceConversion end.

(** The [range artifacts] loop of [GetBuildInfo]; [acc] is
    [info.Artifacts]. *)
Fixpoint range_artifacts (artifacts : list iface) (acc : gmap string string)
  : M (gmap string string) :=
  match artifacts with
  | [] => ret acc
  | artifact :: rest =>
      artifactSafe <- must (Assert.map_must artifact) ;;
      let displayPath :=
        fst (Assert.string_ok (index artifactSafe "displayPath")) in
      let relativePath :=
        fst (Assert.string_ok (index artifactSafe "relativePath")) in
      if negb (String.eqb displayPath "") && negb (String.eqb relativePath "")
      then range_artifacts rest (<[displayPath := relativePath]> acc)
      else range_artifacts rest acc
  end.

(** The body of [GetBuildInfo] after the fetch. *)
Definition decode_JenkinsBuildInfo (json : jsonmap) : M JenkinsBuildInfo :=
  let name := fst (Assert.string_ok (index json "fullDisplayName")) in
  let idF64 := fst (Assert.float64_ok (index json "number")) in
  let id := GoInt.truncate idF64 in
  let artifacts := fst (Assert.slice_ok (index json "artifacts")) in
  artifactMap <- range_artifacts artifacts ∅ ;;
  let building := fst (Assert.bool_ok (index json "building")) in
  let duration := fst (Assert.float64_ok (index json "duration")) in
  let estimatedDuration :=
    fst (Assert.float64_ok (index json "estimatedDuration")) in
  let result :=
    match index json "result" with
    | INil => "BUILDING"
    | v => fst (Assert.string_ok v)
    end in
  let timestamp := fst (Assert.float64_ok (index json "timestamp")) in
  let url := fst (Assert.string_ok (index json "url")) in
  ret (mkJenkinsBuildInfo name id artifactMap building duration
                          estimatedDuration result timestamp url).

Definition GetBuildInfo (name : string) (id : Z)
  : M (option JenkinsBuildInfo * option error) :=
  '(id, err) <- sanitizeID name id ;;
  match err with
  | Some e => ret (None, Some e)
  | None =>
      '(json, err) <- get name id ;;
      if negb (is_nil err) || is_nil json then ret (None, err)
      else
        info <- decode_JenkinsBuildInfo json ;;
        ret (Some info, None)
  end.

(** ** Triggering a build and waiting for it: [DoBuild] *)

(** The three local flags of the wait loop. *)
Record flags : Type := mkFlags {
  inQueue : bool;
  building : bool;
  weird : bool
}.

Definition weird_state : error :=
  errors_New "weird state. could not wait for job to complete.".

(** One pass through the body of the [for] loop: either [DoBuild] returns
    ([inl]) or the loop sleeps and goes round again with its flags
    ([inr]).  The assignment [weird = true] stands after the [return] in
    its block and is never run, so no pass changes [weird]. *)
Definition poll (name : string) (newBuild : Z) (st : flags)
  : M ((option JenkinsBuildInfo * option error) + flags) :=
  '(binfo, err) <- GetBuildInfo name newBuild ;;
  match err with
  | None =>
      b <- deref binfo ;;
      if negb (Build.Building b) then ret (inl (binfo, None))
      else
        let st' := if negb (building st)
                   then mkFlags (inQueue st) true (weird st) else st in
        _ <- io.time_Sleep 1000 ;;
        ret (inr st')
  | Some _ =>
      '(info, err) <- GetInfo name ;;
      match err with
      | Some e => ret (inl (None, Some e))
      | None =>
          info <- deref info ;;
          let go_on :=
            let st' := if InQueue info
                       then if negb (inQueue st)
                            then mkFlags true (building st) (weird st) else st
                       else st in
            _ <- io.time_Sleep 1000 ;;
            ret (inr st') in
          if negb (InQueue info)
             || negb (GoInt.add (LastBuild info) 1 =? newBuild)
          then
            if weird st then ret (inl (None, Some weird_state))
            else go_on
          else go_on
      end
  end.

(** The [for] loop, with fuel for the number of passes. *)
Fixpoint wait_loop (fuel : nat) (name : string) (newBuild : Z) (st : flags)
  : M (option JenkinsBuildInfo * option error) :=
  match fuel with
  | O => fun w => (Running, w)
  | S fuel' =>
      r <- poll name newBuild st ;;
      match r with
      | inl result => ret result
      | inr st' => wait_loop fuel' name newBuild st'
      end
  end.

(** [DoBuild] from [if !wait] on. *)
Definition await (fuel : nat) (name : string) (info : JenkinsInfo)
  (newBuild : Z) : M (option JenkinsBuildInfo * option error) :=
  '(binfo, err) <- GetBuildInfo name (LastStableBuild info) ;;
  match err with
  | Some _ => ret (None, Some (errors_New "Couldn't fetch last stable build info"))
  | None =>
      _ <- deref binfo ;;   (* [binfo.Duration] is printed *)
      wait_loop fuel name newBuild (mkFlags false false false)
  end.

Definition DoBuild (fuel : nat) (name params : string) (wait : bool)
  : M (option JenkinsBuildInfo * option error) :=
  '(info, err) <- GetInfo name ;;
  match err with
  | Some e => ret (None, Some e)
  | None =>
      info <- deref info ;;
      let newBuild := GoInt.add (LastBuild info) 1 in
      err <- (if InQueue info then ret None
              else post name "buildWithParameters" params) ;;
      match err with
      | Some e => ret (None, Some e)
      | None =>
          if negb wait then ret (None, None)
          else await fuel name info newBuild
      end
  end.

(** ** Artifacts *)

Definition build_failed : error := errors_New "the build you requested failed".

Definition artifact_url (server name : string) (id : Z) (inpath : string)
  : string :=
  let nameAndID := path.Join [name; GoInt.Itoa id] in
  "http://" +:+ path.Join [server; "job"; nameAndID; "artifact"; inpath].

Definition GetArtifactReader (name : string) (id : Z) (artifact : string)
  : M (option Body * option error) :=
  '(info, err) <- GetBuildInfo name id ;;
  match err with
  | Some e => ret (None, Some e)
  | None =>
      info <- deref info ;;
      if negb (String.eqb (Build.Result info) "SUCCESS")
      then ret (None, Some build_failed)
      else
        server <- io.server ;;
        getRemote (artifact_url server name id
                     (default "" (Build.Artifacts info !! artifact)))
  end.

(** The [range info.Artifacts] loop of [GetArtifacts].  [artifacts] is the
    slice the function returns; the loop hands it on as it is, since the
    body has no [append]. *)
Fixpoint range_download (name : string) (id : Z) (output : string)
  (todo : list (string * string)) (artifacts : list string)
  : M (list string * option error) :=
  match todo with
  | [] => ret (artifacts, None)
  | (outpath, inpath) :: rest =>
      server <- io.server ;;
      '(artifact, err) <- getRemote (artifact_url server name id inpath) ;;
      match err with
      | Some e => ret (artifacts, Some e)
      | None =>
          let dir := path.Join [output; path.Dir outpath] in
          errMkdir <- io.os_MkdirAll dir ;;
          match errMkdir with
          | Some e => ret (artifacts, Some e)
          | None =>
              errFo <- io.os_Create (path.Join [output; outpath]) ;;
              match errFo with
              | Some e => ret (artifacts, Some e)
              | None =>
                  body <- deref artifact ;;
                  _ <- io.Copy (path.Join [output; outpath]) body ;;
                  range_download name id output rest artifacts
              end
          end
      end
  end.

(** Go leaves the order of [range] over a map open; the model walks the
    map in the order of [map_to_list]. *)
Definition GetArtifacts (name : string) (id : Z) (output : string)
  : M (list string * option error) :=
  '(id, err) <- sanitizeID name id ;;
  match err with
  | Some e => ret ([], Some e)
  | None =>
      '(info, err) <- GetBuildInfo name id ;;
      match err with
      | Some e => ret ([], Some e)
      | None =>
          info <- deref info ;;
          if negb (String.eqb (Build.Result info) "SUCCESS")
          then ret ([], Some build_failed)
          else range_download name id output
                 (map_to_list (Build.Artifacts info)) []
      end
  end.

(** ** Reading a trace *)

(** [w] with the requests [l] made after it. *)
Definition extend (w : World) (l : list Event) : World :=
  mkWorld (JENKINS_SERVER w) (on_Get w) (on_PostForm w) (on_MkdirAll w)
          (on_Create w) (trace w ++ l)%list.

(** Requests that change nothing outside: a GET and a sleep. *)
Definition quiet (e : Event) : bool :=
  match e with EvGet _ | EvSleep _ => true | _ => false end.

Definition is_post (e : Event) : bool :=
  match e with EvPostForm _ _ => true | _ => false end.

Definition is_write (e : Event) : bool :=
  match e with EvMkdirAll _ | EvCreate _ | EvCopy _ _ => true | _ => false end.

(** The number of trigger requests in a trace. *)
Definition posts (t : list Event) : nat := length (List.filter is_post t).

(** The file-system requests of a trace. *)
Definition writes (t : list Event) : list Event := List.filter is_write t.

(** A computation that only looks: whatever the world, it adds nothing but
    GETs and sleeps to the trace. *)
Definition passive {A} (m : M A) : Prop :=
  forall w, exists l, snd (m w) = extend w l /\ forallb quiet l = true.

(** A decoded JSON object. *)
Definition is_object (v : iface) : bool :=
  match v with IMap _ => true | _ => false end.

(** ** The earlier copy of the decoders (second source file)

    The second source file of the repository is the same package with
    [sanitizeId] for [sanitizeID] and with every field read by a one-result
    type assertion, which panics when the field is absent or of another
    type. *)

Module Part000.

Definition GetInfo (name : string) : M (option JenkinsInfo * option error) :=
  '(json, err) <- get name (-1) ;;
  if negb (is_nil err) || is_nil json then ret (None, err)
  else
    name <- must (Assert.string_must (index json "name")) ;;
    description <- must (Assert.string_must (index json "description")) ;;
    url <- must (Assert.string_must (index json "url")) ;;
    buildable <- must (Assert.bool_must (index json "buildable")) ;;
    inQueue <- must (Assert.bool_must (index json "inQueue")) ;;
    let lastBuild := index json "lastBuild" in
    '(lastBuildNum, lastBuildUrl) <-
      match lastBuild with
      | INil => ret (0, "")
      | _ =>
          lastBuildSafe <- must (Assert.map_must lastBuild) ;;
          numF64 <- must (Assert.float64_must (index lastBuildSafe "number")) ;;
          url <- must (Assert.string_must (index lastBuildSafe "url")) ;;
          ret (GoInt.truncate numF64, url)
      end ;;
    let lastStableBuild := index json "lastStableBuild" in
    '(lastStableBuildNum, lastStableBuildUrl) <-
      match lastStableBuild with
      | INil => ret (0, "")
      | _ =>
          lastStableBuildSafe <- must (Assert.map_must lastStableBuild) ;;
          numF64 <-
            must (Assert.float64_must (index lastStableBuildSafe "number")) ;;
          url <- must (Assert.string_must (index lastStableBuildSafe "url")) ;;
          ret (GoInt.truncate numF64, url)
      end ;;
    ret (Some (mkJenkinsInfo name description url buildable inQueue
                 lastBuildNum lastBuildUrl
                 lastStableBuildNum lastStableBuildUrl), None).

Definition sanitizeId (name : string) (id : Z) : M (Z * option error) :=
  if id =? -1 then
    '(info, err) <- GetInfo name ;;
    match err with
    | Some e => ret (id, Some e)
    | None =>
        info <- deref info ;;
        if LastBuild info =? 0 then
          ret (id, Some (errors_New "no build available"))
        else ret (LastBuild info, None)
    end
  else if id =? -2 then
    '(info, err) <- GetInfo name ;;
    match err with
    | Some e => ret (id, Some e)
    | None =>
        info <- deref info ;;
        if LastStableBuild info =? 0 then
          ret (id, Some (errors_New "no stable build available"))
        else ret (LastStableBuild info, None)
    end
  else ret (id, None).

Fixpoint range_artifacts (artifacts : list iface) (acc : gmap string string)
  : M (gmap string string) :=
  match artifacts with
  | [] => ret acc
  | artifact :: rest =>
      artifactSafe <- must (Assert.map_must artifact) ;;
      displayPath <-
        must (Assert.string_must (index artifactSafe "displayPath")) ;;
      relativePath <-
        must (Assert.string_must (index artifactSafe "relativePath")) ;;
      range_artifacts rest (<[displayPath := relativePath]> acc)
  end.

Definition GetBuildInfo (name : string) (id : Z)
  : M (option JenkinsBuildInfo * option error) :=
  '(id, err) <- sanitizeId name id ;;
  match err with
  | Some e => ret (None, Some e)
  | None =>
      '(json, err) <- get name id ;;
      if negb (is_nil err) || is_nil json then ret (None, err)
      else
        name <- must (Assert.string_must (index json "fullDisplayName")) ;;
        idF64 <- must (Assert.float64_must (index json "number")) ;;
        artifacts <- must (Assert.slice_must (index json "artifacts")) ;;
        artifactMap <- range_artifacts artifacts ∅ ;;
        building <- must (Assert.bool_must (index json "building")) ;;
        duration <- must (Assert.float64_must (index json "duration")) ;;
        estimatedDuration <-
          must (Assert.float64_must (index json "estimatedDuration")) ;;
        result <-
          match index json "result" with
          | INil => ret "BUILDING"
          | v => must (Assert.string_must v)
          end ;;
        timestamp <- must (Assert.float64_must (index json "timestamp")) ;;
        url <- must (Assert.string_must (index json "url")) ;;
        ret (Some (mkJenkinsBuildInfo name (GoInt.truncate idF64) artifactMap
                     building duration estimatedDuration result timestamp
                     url), None)
  end.

End Part000.

(** ** Sample documents and worlds *)

Module Sample.

Definition obj (l : list (string * iface)) : iface := IMap (list_to_map l).
Definition num (z : Z) : iface := IFloat64 (GoInt.to_float z).

(** A server that answers a GET for one of the addresses in [docs] with
    that body and any other GET with 404, accepts every POST, and a
    file system on which everything succeeds. *)
Definition serving (docs : list (string * Body)) : World :=
  mkWorld DEFAULT_SERVER
    (fun _ u =>
       match list_to_map (M := gmap string Body) docs !! u with
       | Some body => HttpResponse 200 body
       | None => HttpResponse 404 (RawBody "not found")
       end)
    (fun _ _ _ => HttpResponse 200 (RawBody ""))
    (fun _ _ => None) (fun _ _ => None) [].

Definition job_url : string :=
  "http://alfred-jenkins.sv2:8080/job/demo/api/json".
Definition build5_url : string :=
  "http://alfred-jenkins.sv2:8080/job/demo/5/api/json".
Definition build6_url : string :=
  "http://alfred-jenkins.sv2:8080/job/demo/6/api/json".
Definition post_url : string :=
  "http://alfred-jenkins.sv2:8080/job/demo/buildWithParameters?token=demo-token".

(** What [DoBuild] asks before it enters the wait loop, when the job is
    idle: the job, the trigger, the last stable build. *)
Definition triggered : list Event :=
  [EvGet job_url; EvPostForm post_url (fst (url.ParseQuery "env=prod"));
   EvGet build5_url].

(** What one pass of the wait loop asks when build 6 cannot be fetched:
    the build, the job, a sleep. *)
Definition weird_pass : list Event :=
  [EvGet build6_url; EvGet job_url; EvSleep 1000].

(** Job [demo]: builds up to number 5, the last stable one is 5. *)
Definition job (queued : bool) : iface :=
  obj [("name", IString "demo"); ("inQueue", IBool queued);
       ("lastBuild", obj [("number", num 5)]);
       ("lastStableBuild", obj [("number", num 5)])].

(** What [job queued] decodes to. *)
Definition job_info (queued : bool) : JenkinsInfo :=
  mkJenkinsInfo "demo" "" "" false queued 5 "" 5 "".

(** Build 5: finished with SUCCESS, one artifact. *)
Definition build5 : iface :=
  obj [("fullDisplayName", IString "demo #5"); ("number", num 5);
       ("building", IBool false); ("result", IString "SUCCESS");
       ("artifacts",
        ISlice [obj [("displayPath", IString "out/a.txt");
                     ("relativePath", IString "target/a.txt")]])].

(** What [build5] decodes to. *)
Definition succeeded5 : JenkinsBuildInfo :=
  mkJenkinsBuildInfo "demo #5" 5 (<["out/a.txt" := "target/a.txt"]> ∅) false
                     (S754_zero false) (S754_zero false) "SUCCESS"
                     (S754_zero false) "".

Definition artifact5_url : string :=
  "http://alfred-jenkins.sv2:8080/job/demo/5/artifact/target/a.txt".
Definition artifact_latest_url : string :=
  "http://alfred-jenkins.sv2:8080/job/demo/-1/artifact/target/a.txt".

(** Build 5 with an artifact list whose one element is a number. *)
Definition build5_malformed : iface :=
  obj [("fullDisplayName", IString "demo #5"); ("number", num 5);
       ("building", IBool false); ("result", IString "SUCCESS");
       ("artifacts", ISlice [num 1])].

(** Build 5 as a failed build. *)
Definition build5_failed : iface :=
  obj [("fullDisplayName", IString "demo #5"); ("number", num 5);
       ("building", IBool false); ("result", IString "FAILURE");
       ("artifacts", ISlice [])].

(** What [build5_failed] decodes to. *)
Definition failed5 : JenkinsBuildInfo :=
  mkJenkinsBuildInfo "demo #5" 5 ∅ false (S754_zero false) (S754_zero false)
                     "FAILURE" (S754_zero false) "".

End Sample.

(** The job is idle, build 6 does not exist. *)
Definition idle_world : World :=
  Sample.serving [(Sample.job_url, JsonBody (Sample.job false));
                  (Sample.build5_url, JsonBody Sample.build5)].


(** The last build of the job failed. *)
Definition failed_world : World :=
  Sample.serving [(Sample.job_url, JsonBody (Sample.job false));
                  (Sample.build5_url, JsonBody Sample.build5_failed)].

(** The idle job, with the artifact of build 5 on the server. *)
Definition artifact_world : World :=
  Sample.serving [(Sample.job_url, JsonBody (Sample.job false));
                  (Sample.build5_url, JsonBody Sample.build5);
                  (Sample.artifact5_url, RawBody "hello")].

(** Build 5 lists a number where an artifact should be. *)
Definition malformed_world : World :=
  Sample.serving [(Sample.job_url, JsonBody (Sample.job false));
                  (Sample.build5_url, JsonBody Sample.build5_malformed)].

(** The server answers the request for the job document with [null]. *)
Definition null_world : World :=
  Sample.serving [(Sample.job_url, JsonBody INil)].

(** The server answers every document request with an empty object. *)
Definition empty_world : World :=
  Sample.serving [(Sample.job_url, JsonBody (Sample.obj []));
                  (Sample.build5_url, JsonBody (Sample.obj []))].

(** The scenario of a build that goes through the queue: the job is idle
    with last build 5; after the trigger, build 6 is not there and the job
    not yet in the queue (requests 3 and 4), then the job is in the queue
    (requests 6 and 7), then build 6 is building (request 9), then it has
    finished with SUCCESS (request 11).  Requests are numbered from 0 in
    the order [DoBuild] makes them, sleeps included. *)
Module Scenario.

Definition build6 (running : bool) : iface :=
  Sample.obj
    [("fullDisplayName", IString "demo #6"); ("number", Sample.num 6);
     ("building", IBool running);
     ("result", if running then INil else IString "SUCCESS");
     ("artifacts", ISlice [])].

Definition finished6 : JenkinsBuildInfo :=
  mkJenkinsBuildInfo "demo #6" 6 ∅ false (S754_zero false) (S754_zero false)
                     "SUCCESS" (S754_zero false) "".

Definition answer (t : nat) (u : string) : http_result :=
  if String.eqb u Sample.job_url then
    HttpResponse 200 (JsonBody (Sample.job (Nat.eqb t 7)))
  else if String.eqb u Sample.build5_url then
    HttpResponse 200 (JsonBody Sample.build5)
  else if String.eqb u Sample.build6_url then
    if Nat.ltb t 9 then HttpResponse 404 (RawBody "not found")
    else HttpResponse 200 (JsonBody (build6 (Nat.ltb t 11)))
  else HttpResponse 404 (RawBody "not found").

Definition world : World :=
  mkWorld DEFAULT_SERVER answer
    (fun _ _ _ => HttpResponse 200 (RawBody ""))
    (fun _ _ => None) (fun _ _ => None) [].

Definition requests : list Event :=
  (Sample.triggered
     ++ [EvGet Sample.build6_url; EvGet Sample.job_url; EvSleep 1000;
         EvGet Sample.build6_url; EvGet Sample.job_url; EvSleep 1000;
         EvGet Sample.build6_url; EvSleep 1000;
         EvGet Sample.build6_url])%list.

End Scenario.

(** ** More worlds *)

(** [w] with another file system. *)
Definition with_fs (w : World) (mk cr : nat -> string -> option string) : World :=
  mkWorld (JENKINS_SERVER w) (on_Get w) (on_PostForm w) mk cr (trace w).

(** [w] with another answer to trigger requests. *)
Definition with_post (w : World)
  (po : nat -> string -> url.Values -> http_result) : World :=
  mkWorld (JENKINS_SERVER w) (on_Get w) po (on_MkdirAll w) (on_Create w)
          (trace w).

(** No server can be reached. *)
Definition offline_world : World :=
  mkWorld DEFAULT_SERVER
    (fun _ _ => HttpFail "connection refused")
    (fun _ _ _ => HttpFail "connection refused")
    (fun _ _ => None) (fun _ _ => None) [].

(** The artifact is on the server, and nothing can be written. *)
Definition readonly_world : World :=
  with_fs artifact_world
    (fun _ _ => Some "read-only file system")
    (fun _ _ => Some "read-only file system").

(** The server refuses the trigger request with 403. *)
Definition refusing_world : World :=
  with_post idle_world (fun _ _ _ => HttpResponse 403 (RawBody "forbidden")).

(** The job is idle and its last stable build is not on the server. *)
Definition no_stable_world : World :=
  Sample.serving [(Sample.job_url, JsonBody (Sample.job false))].

(** A job document with every field the wire contract names. *)
Definition full_job : iface :=
  Sample.obj
    [("name", IString "demo"); ("description", IString "a job");
     ("url", IString "http://ci/job/demo/"); ("buildable", IBool true);
     ("inQueue", IBool false);
     ("lastBuild", Sample.obj [("number", Sample.num 5);
                               ("url", IString "http://ci/job/demo/5/")]);
     ("lastStableBuild", INil)].

Definition full_world : World :=
  Sample.serving [(Sample.job_url, JsonBody full_job)].

(** Build 5 with two artifacts, both on the server. *)
Definition artifact5b_url : string :=
  "http://alfred-jenkins.sv2:8080/job/demo/5/artifact/target/b.txt".

Definition build5_two : iface :=
  Sample.obj
    [("fullDisplayName", IString "demo #5"); ("number", Sample.num 5);
     ("building", IBool false); ("result", IString "SUCCESS");
     ("artifacts",
      ISlice [Sample.obj [("displayPath", IString "out/a.txt");
                          ("relativePath", IString "target/a.txt")];
              Sample.obj [("displayPath", IString "out/b.txt");
                          ("relativePath", IString "target/b.txt")]])].

Definition succeeded5_two : JenkinsBuildInfo :=
  mkJenkinsBuildInfo "demo #5" 5
    (<["out/b.txt" := "target/b.txt"]> (<["out/a.txt" := "target/a.txt"]> ∅))
    false (S754_zero false) (S754_zero false) "SUCCESS" (S754_zero false) "".

Definition two_artifacts_world : World :=
  Sample.serving [(Sample.job_url, JsonBody (Sample.job false));
                  (Sample.build5_url, JsonBody build5_two);
                  (Sample.artifact5_url, RawBody "hello");
                  (artifact5b_url, RawBody "world")].

Definition two_bodies (u : string) : Body :=
  if String.eqb u Sample.artifact5_url then RawBody "hello" else RawBody "world".

(** ** Conditions on worlds and computations *)

(** A computation that adds nothing to the trace but requests satisfying
    [P]. *)
Definition confined (P : Event -> bool) {A} (m : M A) : Prop :=
  forall w, exists l, snd (m w) = extend w l /\ forallb P l = true.

Definition is_get (e : Event) : bool :=
  match e with EvGet _ => true | _ => false end.

Definition no_post_no_sleep (e : Event) : bool :=
  match e with EvPostForm _ _ | EvSleep _ => false | _ => true end.

(** A computation that never stops for want of fuel. *)
Definition settled {A} (m : M A) : Prop := forall w, fst (m w) <> Running.

(** The file system accepts every request, whenever it is made. *)
Definition fs_accepts (w : World) : Prop :=
  forall t p, on_MkdirAll w t p = None /\ on_Create w t p = None.

(** The server answers a GET for [u] with 200 and [body], whenever it is
    asked. *)
Definition serves (w : World) (u : string) (body : Body) : Prop :=
  forall t, on_Get w t u = HttpResponse 200 body.

(** What [GetArtifacts] asks for one artifact when nothing fails. *)
Definition download_events (server name : string) (id : Z) (output : string)
  (bodies : string -> Body) (entry : string * string) : list Event :=
  let '(outpath, inpath) := entry in
  let file := path.Join [output; outpath] in
  [EvGet (artifact_url server name id inpath);
   EvMkdirAll (path.Join [output; path.Dir outpath]);
   EvCreate file;
   EvCopy file (bodies (artifact_url server name id inpath))].

(** What the server's answer to the request for a document makes of
    [get]'s two results. *)
Definition fetched (answer : http_result) (theurl : string)
  : jsonmap * option error :=
  match answer with
  | HttpFail msg => (None, Some (net_error msg))
  | HttpResponse status body =>
      if status =? 200 then
        match body with
        | JsonBody (IMap m) => (Some m, None)
        | JsonBody INil => (None, None)
        | _ => (None, Some json_error)
        end
      else (None, Some (errors_New ("Bad status: " +:+ GoInt.Itoa status
                                      +:+ " from " +:+ theurl)))
  end.

(** A path element that [path.Clean] leaves alone: not empty, without a
    slash, and neither [.] nor [..]. *)
Definition is_digit (c : ascii) : bool :=
  let n := N_of_ascii c in ((48 <=? n) && (n <=? 57))%N.

Fixpoint digits (s : string) : bool :=
  match s with
  | EmptyString => true
  | String a s' => is_digit a && digits s'
  end.

Fixpoint no_slash (s : string) : bool :=
  match s with
  | EmptyString => true
  | String a s' => negb (Ascii.eqb a "/") && no_slash s'
  end.

Definition plain (s : string) : bool :=
  negb (String.eqb s "") && negb (String.eqb s ".")
  && negb (String.eqb s "..") && no_slash s.

(** * Properties *)

(** ** The monad *)

Lemma bind_ret_l {A B} (a : A) (k : A -> M B) (w : World) :
  bind (ret a) k w = k a w.
Proof. reflexivity. Qed.

Lemma bind_eq_Ret {A B} (m : M A) (k : A -> M B) w a w1 :
  m w = (Ret a, w1) -> bind m k w = k a w1.
Proof. intros E. unfold bind. rewrite E. reflexivity. Qed.

Lemma bind_Ret_inv {A B} (m : M A) (k : A -> M B) w b w' :
  bind m k w = (Ret b, w') ->
  exists a w1, m w = (Ret a, w1) /\ k a w1 = (Ret b, w').
Proof.
  unfold bind. destruct (m w) as [[a | p |] w1]; intros E;
    [eauto | discriminate | discriminate].
Qed.

Lemma deref_Ret_inv {A} (p : option A) w a w' :
  deref p w = (Ret a, w') -> p = Some a /\ w' = w.
Proof.
  destruct p as [x |]; cbn; intros E; [| discriminate].
  injection E as -> ->. auto.
Qed.

(** ** What a call adds to the trace *)

Lemma extend_nil w : extend w [] = w.
Proof. destruct w. unfold extend. cbn. rewrite app_nil_r. reflexivity. Qed.

Lemma extend_extend w l1 l2 : extend (extend w l1) l2 = extend w (l1 ++ l2)%list.
Proof. unfold extend. cbn. rewrite app_assoc. reflexivity. Qed.

Lemma emit_extend e w : emit e w = extend w [e].
Proof. reflexivity. Qed.

Lemma passive_ret {A} (a : A) : passive (ret a).
Proof. intros w. exists []. cbn. rewrite extend_nil. auto. Qed.

Lemma passive_throw {A} p : passive (@throw A p).
Proof. intros w. exists []. cbn. rewrite extend_nil. auto. Qed.

Lemma passive_bind {A B} (m : M A) (k : A -> M B) :
  passive m -> (forall a, passive (k a)) -> passive (bind m k).
Proof.
  intros Hm Hk w. destruct (Hm w) as (l1 & E1 & Q1). unfold bind.
  destruct (m w) as [[a | p |] w1]; cbn in E1; subst w1;
    try solve [exists l1; cbn; auto].
  destruct (Hk a (extend w l1)) as (l2 & E2 & Q2).
  exists (l1 ++ l2)%list. rewrite E2, extend_extend, forallb_app, Q1, Q2. auto.
Qed.

Lemma passive_deref {A} (p : option A) : passive (deref p).
Proof. destruct p; [apply passive_ret | apply passive_throw]. Qed.

Lemma passive_must {A} (p : option A) : passive (must p).
Proof. destruct p; [apply passive_ret | apply passive_throw]. Qed.

Lemma passive_server : passive io.server.
Proof. intros w. exists []. cbn. rewrite extend_nil. auto. Qed.

Lemma passive_http_Get u : passive (io.http_Get u).
Proof. intros w. exists [EvGet u]. auto. Qed.

Lemma passive_time_Sleep ms : passive (io.time_Sleep ms).
Proof. intros w. exists [EvSleep ms]. auto. Qed.

Lemma passive_Running {A} : passive (fun w => (@Running A, w)).
Proof. intros w. exists []. cbn. rewrite extend_nil. auto. Qed.

Create HintDb passive.

(** Walks through a computation built from [bind], [ret], matches and the
    passive primitives. *)
Ltac passive_step :=
  match goal with
  | |- passive (bind _ _) => apply passive_bind; [| intros ?]
  | |- passive (ret _) => apply passive_ret
  | |- passive (throw _) => apply passive_throw
  | |- passive (deref _) => apply passive_deref
  | |- passive (must _) => apply passive_must
  | |- passive io.server => apply passive_server
  | |- passive (io.http_Get _) => apply passive_http_Get
  | |- passive (io.time_Sleep _) => apply passive_time_Sleep
  | |- passive (match ?x with _ => _ end) => destruct x
  | |- passive _ => solve [auto with passive]
  end.

Ltac passive_auto := repeat (passive_step; cbn beta iota zeta).

Lemma passive_getRemote u : passive (getRemote u).
Proof. unfold getRemote. passive_auto. Qed.
#[local] Hint Resolve passive_getRemote : passive.

Lemma passive_get name id : passive (get name id).
Proof. unfold get. passive_auto. Qed.
#[local] Hint Resolve passive_get : passive.

Lemma passive_GetInfo name : passive (GetInfo name).
Proof. unfold GetInfo. passive_auto. Qed.
#[local] Hint Resolve passive_GetInfo : passive.

Lemma passive_sanitizeID name id : passive (sanitizeID name id).
Proof. unfold sanitizeID. passive_auto. Qed.
#[local] Hint Resolve passive_sanitizeID : passive.

Lemma passive_range_artifacts l acc : passive (range_artifacts l acc).
Proof.
  revert acc. induction l as [| a l IH]; intros acc; cbn [range_artifacts];
    passive_auto.
Qed.
#[local] Hint Resolve passive_range_artifacts : passive.

Lemma passive_GetBuildInfo name id : passive (GetBuildInfo name id).
Proof.
  unfold GetBuildInfo, decode_JenkinsBuildInfo. passive_auto.
Qed.
#[local] Hint Resolve passive_GetBuildInfo : passive.

Lemma passive_poll name newBuild st : passive (poll name newBuild st).
Proof.
  unfold poll. passive_auto.
Qed.
#[local] Hint Resolve passive_poll : passive.

Lemma passive_wait_loop fuel name newBuild st :
  passive (wait_loop fuel name newBuild st).
Proof.
  revert st. induction fuel as [| fuel IH]; intros st; cbn [wait_loop].
  - apply passive_Running.
  - passive_auto.
Qed.
#[local] Hint Resolve passive_wait_loop : passive.

Lemma passive_await fuel name info newBuild :
  passive (await fuel name info newBuild).
Proof.
  unfold await. passive_auto.
Qed.
#[local] Hint Resolve passive_await : passive.

Lemma posts_app t l : posts (t ++ l) = (posts t + posts l)%nat.
Proof. unfold posts. rewrite List.filter_app, length_app. reflexivity. Qed.

Lemma quiet_posts l : forallb quiet l = true -> posts l = 0%nat.
Proof.
  induction l as [| e l IH]; [reflexivity |]. cbn [forallb].
  intros [Q1 Q2]%andb_prop. destruct e; try discriminate; apply IH, Q2.
Qed.

Lemma quiet_writes l : forallb quiet l = true -> writes l = [].
Proof.
  induction l as [| e l IH]; [reflexivity |]. cbn [forallb].
  intros [Q1 Q2]%andb_prop. destruct e; try discriminate; apply IH, Q2.
Qed.

Lemma passive_posts {A} (m : M A) w :
  passive m -> posts (trace (snd (m w))) = posts (trace w).
Proof.
  intros Hm. destruct (Hm w) as (l & -> & Q). unfold extend. cbn [trace].
  rewrite posts_app, (quiet_posts _ Q). lia.
Qed.

Lemma passive_writes {A} (m : M A) w :
  passive m -> writes (trace (snd (m w))) = writes (trace w).
Proof.
  intros Hm. destruct (Hm w) as (l & -> & Q). unfold extend. cbn [trace].
  unfold writes. rewrite List.filter_app. fold (writes l). rewrite (quiet_writes _ Q).
  apply app_nil_r.
Qed.

(** ** Integers *)

Lemma GoInt_truncate_in_range f : GoInt.in_range (GoInt.truncate f).
Proof.
  unfold GoInt.in_range, GoInt.truncate.
  destruct f as [s | s | | s m e]; try (unfold GoInt.min_int, GoInt.max_int; lia).
  cbn zeta.
  destruct (GoInt.min_int <=? _) eqn:E1; cbn [andb];
    [| unfold GoInt.min_int, GoInt.max_int; lia].
  destruct (_ <=? GoInt.max_int) eqn:E2;
    [| unfold GoInt.min_int, GoInt.max_int; lia].
  apply Z.leb_le in E1, E2. lia.
Qed.

(** Adding one does not wrap below the largest [int]. *)
Lemma GoInt_add_one a :
  GoInt.min_int <= a < GoInt.max_int -> GoInt.add a 1 = a + 1.
Proof.
  unfold GoInt.add, GoInt.wrap, GoInt.min_int, GoInt.max_int. intros H.
  rewrite Z.mod_small; lia.
Qed.

(** ** The resolver *)

(** C9: a positive literal build identifier comes back unchanged, with no
    error, and the world is left as it was: no request is made. *)
Theorem sanitizeID_positive_literal (name : string) (id : Z) (w : World) :
  0 < id -> sanitizeID name id w = (Ret (id, None), w).
Proof.
  intros Hpos. unfold sanitizeID.
  destruct (Z.eqb_spec id (-1)) as [-> |]; [lia |].
  destruct (Z.eqb_spec id (-2)) as [-> |]; [lia |].
  reflexivity.
Qed.

Lemma sanitizeID_positive_literal_witness :
  sanitizeID "demo" 7 idle_world = (Ret (7, None), idle_world).
Proof. apply (sanitizeID_positive_literal "demo" 7 idle_world). lia. Defined.

(** C8: when the job document can be fetched, "latest" (-1) fails with
    "no build available" if [LastBuild] is 0 and is [LastBuild] otherwise;
    "latest stable" (-2) fails with "no stable build available" if
    [LastStableBuild] is 0 and is [LastStableBuild] otherwise. *)
Theorem sanitizeID_symbolic (name : string) (w w1 : World) (info : JenkinsInfo) :
  GetInfo name w = (Ret (Some info, None), w1) ->
  (LastBuild info = 0 ->
     sanitizeID name (-1) w
     = (Ret (-1, Some (errors_New "no build available")), w1)) /\
  (LastBuild info <> 0 ->
     sanitizeID name (-1) w = (Ret (LastBuild info, None), w1)) /\
  (LastStableBuild info = 0 ->
     sanitizeID name (-2) w
     = (Ret (-2, Some (errors_New "no stable build available")), w1)) /\
  (LastStableBuild info <> 0 ->
     sanitizeID name (-2) w = (Ret (LastStableBuild info, None), w1)).
Proof.
  intros E. unfold sanitizeID. cbn [Z.eqb Pos.eqb].
  repeat split; intros H; rewrite (bind_eq_Ret _ _ _ _ _ E); cbn.
  - rewrite H. reflexivity.
  - destruct (Z.eqb_spec (LastBuild info) 0); [contradiction | reflexivity].
  - rewrite H. reflexivity.
  - destruct (Z.eqb_spec (LastStableBuild info) 0); [contradiction | reflexivity].
Qed.

Lemma sanitizeID_symbolic_witness :
  sanitizeID "demo" (-1) idle_world
  = (Ret (5, None), emit (EvGet Sample.job_url) idle_world).
Proof.
  refine (proj1 (proj2 (sanitizeID_symbolic "demo" idle_world
            (emit (EvGet Sample.job_url) idle_world)
            (Sample.job_info false) _)) _).
  - reflexivity.
  - cbn. lia.
Defined.

(** A job document that is [null] decodes to the nil map; [GetInfo] then
    returns [(nil, nil)] and the resolver panics on [info.LastBuild]. *)
Example sanitizeID_null_document :
  GetInfo "demo" null_world
  = (Ret (None, None), extend null_world [EvGet Sample.job_url]) /\
  sanitizeID "demo" (-1) null_world
  = (Panicked NilDereference, extend null_world [EvGet Sample.job_url]).
Proof. split; reflexivity. Qed.

(** ** Artifacts of a build that did not succeed *)

Lemma decode_result_absent json info w w' :
  decode_JenkinsBuildInfo json w = (Ret info, w') ->
  index json "result" = INil -> Build.Result info = "BUILDING".
Proof.
  unfold decode_JenkinsBuildInfo. intros E Hr.
  apply bind_Ret_inv in E as (arts & w1 & _ & E).
  injection E as <- _. cbn. rewrite Hr. reflexivity.
Qed.

(** C6: when the build that was fetched has a result other than SUCCESS,
    [GetArtifacts] and [GetArtifactReader] return the error "the build you
    requested failed" and the trace has no directory creation, file
    creation or copy that it had not before; a document without a result
    decodes to the result BUILDING, which is such a result. *)
Theorem artifacts_need_success (name : string) (id : Z) (w : World) :
  (forall output id' w1 info w2,
     sanitizeID name id w = (Ret (id', None), w1) ->
     GetBuildInfo name id' w1 = (Ret (Some info, None), w2) ->
     Build.Result info <> "SUCCESS" ->
     GetArtifacts name id output w = (Ret ([], Some build_failed), w2) /\
     writes (trace w2) = writes (trace w)) /\
  (forall artifact info w2,
     GetBuildInfo name id w = (Ret (Some info, None), w2) ->
     Build.Result info <> "SUCCESS" ->
     GetArtifactReader name id artifact w = (Ret (None, Some build_failed), w2) /\
     writes (trace w2) = writes (trace w)) /\
  (forall json info w0 w0',
     decode_JenkinsBuildInfo json w0 = (Ret info, w0') ->
     index json "result" = INil ->
     Build.Result info = "BUILDING" /\ Build.Result info <> "SUCCESS").
Proof.
  split; [| split].
  - intros output id' w1 info w2 Es Eb Hr. split.
    + unfold GetArtifacts. rewrite (bind_eq_Ret _ _ _ _ _ Es).
      rewrite (bind_eq_Ret _ _ _ _ _ Eb). cbn.
      apply String.eqb_neq in Hr. rewrite Hr. reflexivity.
    + pose proof (passive_writes _ w (passive_sanitizeID name id)) as P1.
      pose proof (passive_writes _ w1 (passive_GetBuildInfo name id')) as P2.
      rewrite Es in P1. rewrite Eb in P2. cbn in P1, P2. congruence.
  - intros artifact info w2 Eb Hr. split.
    + unfold GetArtifactReader. rewrite (bind_eq_Ret _ _ _ _ _ Eb). cbn.
      apply String.eqb_neq in Hr. rewrite Hr. reflexivity.
    + pose proof (passive_writes _ w (passive_GetBuildInfo name id)) as P.
      rewrite Eb in P. exact P.
  - intros json info w0 w0' E Hr.
    rewrite (decode_result_absent _ _ _ _ E Hr). split; [reflexivity | discriminate].
Qed.

Lemma artifacts_need_success_witness :
  GetArtifacts "demo" (-1) "dest" failed_world
  = (Ret ([], Some build_failed),
     extend failed_world [EvGet Sample.job_url; EvGet Sample.build5_url]) /\
  writes (trace (extend failed_world [EvGet Sample.job_url; EvGet Sample.build5_url]))
  = writes (trace failed_world).
Proof.
  destruct (artifacts_need_success "demo" (-1) failed_world) as [H _].
  apply (H "dest" 5 (extend failed_world [EvGet Sample.job_url]) Sample.failed5).
  - reflexivity.
  - reflexivity.
  - discriminate.
Defined.

(** ** The wait loop *)

Lemma ret_Ret_inv {A} (a b : A) w w' :
  ret a w = (Ret b, w') -> a = b /\ w = w'.
Proof. unfold ret. intros E. injection E as -> ->. auto. Qed.

(** Takes apart a hypothesis saying that a computation returned. *)
Ltac run_inv :=
  repeat match goal with
  | H : bind _ _ _ = (Ret _, _) |- _ =>
      let a := fresh "a" in let w := fresh "w" in let E := fresh "E" in
      apply bind_Ret_inv in H as (a & w & E & H)
  | H : ret _ _ = (Ret _, _) |- _ =>
      apply ret_Ret_inv in H as [H ->]
  | H : deref _ _ = (Ret _, _) |- _ =>
      apply deref_Ret_inv in H as [-> ->]
  | H : (let '(_, _) := ?x in _) _ = _ |- _ => destruct x eqn:?
  | H : (match ?x with _ => _ end) _ = (Ret _, _) |- _ => destruct x eqn:?
  | H : (if ?x then _ else _) _ = (Ret _, _) |- _ => destruct x eqn:?
  | H : inl _ = inl _ |- _ => injection H as H
  | H : inr _ = inr _ |- _ => injection H as H
  | H : inl _ = inr _ |- _ => discriminate H
  | H : inr _ = inl _ |- _ => discriminate H
  | H : (_, _) = (_, _) |- _ => injection H as ? ?
  | H : None = Some _ |- _ => discriminate H
  | H : Some _ = None |- _ => discriminate H
  | H : Some _ = Some _ |- _ => injection H as H
  end; subst.

(** A pass that makes [DoBuild] return a build has just fetched it, not
    building. *)
Lemma poll_returns_build name newBuild st w b e w' :
  poll name newBuild st w = (Ret (inl (Some b, e)), w') ->
  e = None /\ Build.Building b = false /\
  GetBuildInfo name newBuild w = (Ret (Some b, None), w').
Proof.
  unfold poll. intros H. run_inv.
  apply negb_true_iff in Heqb0. auto.
Qed.

(** A pass after which the loop goes on leaves [weird] as it was. *)
Lemma poll_keeps_weird name newBuild st w st' w' :
  poll name newBuild st w = (Ret (inr st'), w') -> weird st' = weird st.
Proof.
  unfold poll. intros H. run_inv; try reflexivity;
    repeat match goal with
           | |- context [if ?c then _ else _] => destruct c
           end; cbn; congruence.
Qed.

(** C7, as the code has it: the loop returns a build exactly from a pass
    in which the target build was fetched with [Building] false, and it
    returns that build: such a pass ends the loop with the build as it was
    fetched; a build that the loop returns was fetched so, without error,
    by the last pass, in a world reached from the first by GETs and sleeps
    alone; a fetched build that is still building, and a build that cannot
    be fetched while the job can, make the loop sleep for 1000 ms and poll
    again; a build that cannot be fetched while the job fetch fails too
    ends the loop at once with the error of the job fetch and no build. *)
Theorem wait_loop_success_exit (name : string) (newBuild : Z) :
  (forall fuel st w b w1,
     GetBuildInfo name newBuild w = (Ret (Some b, None), w1) ->
     Build.Building b = false ->
     wait_loop (S fuel) name newBuild st w = (Ret (Some b, None), w1)) /\
  (forall fuel st w b e w',
     wait_loop fuel name newBuild st w = (Ret (Some b, e), w') ->
     e = None /\ Build.Building b = false /\
     exists l, forallb quiet l = true /\
       GetBuildInfo name newBuild (extend w l) = (Ret (Some b, None), w')) /\
  (forall fuel st w b w1,
     GetBuildInfo name newBuild w = (Ret (Some b, None), w1) ->
     Build.Building b = true ->
     exists st', weird st' = weird st /\
       wait_loop (S fuel) name newBuild st w
       = wait_loop fuel name newBuild st' (emit (EvSleep 1000) w1)) /\
  (forall fuel st w binfo e w1 info w2,
     GetBuildInfo name newBuild w = (Ret (binfo, Some e), w1) ->
     GetInfo name w1 = (Ret (Some info, None), w2) ->
     weird st = false ->
     exists st', weird st' = false /\
       wait_loop (S fuel) name newBuild st w
       = wait_loop fuel name newBuild st' (emit (EvSleep 1000) w2)) /\
  (forall fuel st w binfo e1 w1 r e w2,
     GetBuildInfo name newBuild w = (Ret (binfo, Some e1), w1) ->
     GetInfo name w1 = (Ret (r, Some e), w2) ->
     wait_loop (S fuel) name newBuild st w = (Ret (None, Some e), w2)).
Proof.
  split; [| split; [| split; [| split]]].
  - intros fuel st w b w1 E Hb. cbn [wait_loop]. unfold poll.
    unfold bind at 1 2. rewrite E. cbn. rewrite Hb. reflexivity.
  - intros fuel. induction fuel as [| fuel IH]; intros st w b e w' H;
      cbn [wait_loop] in H.
    + discriminate.
    + apply bind_Ret_inv in H as ([r | st'] & w1 & E & H).
      * apply ret_Ret_inv in H as [-> ->].
        apply poll_returns_build in E as (-> & Hb & E).
        repeat split; auto. exists []. rewrite extend_nil. auto.
      * destruct (IH _ _ _ _ _ H) as (-> & Hb & l & Q & G).
        repeat split; auto.
        destruct (passive_poll name newBuild st w) as (l1 & P & Q1).
        rewrite E in P. cbn in P. subst w1. rewrite extend_extend in G.
        exists (l1 ++ l)%list. rewrite forallb_app, Q1, Q. auto.
  - intros fuel st w b w1 E Hb.
    exists (if negb (building st) then mkFlags (inQueue st) true (weird st) else st).
    split; [destruct (building st); reflexivity |].
    cbn [wait_loop]. unfold poll at 1.
    unfold bind at 1 2. rewrite E. cbn. rewrite Hb. reflexivity.
  - intros fuel st w binfo e w1 info w2 E Ei Hw.
    exists (if InQueue info
            then if negb (inQueue st) then mkFlags true (building st) (weird st) else st
            else st).
    split; [destruct (InQueue info), (inQueue st); cbn; auto |].
    cbn [wait_loop]. unfold poll at 1.
    unfold bind at 1 2. rewrite E. unfold bind at 1. rewrite Ei. cbn.
    rewrite Hw.
    destruct (negb (InQueue info) || negb (GoInt.add (LastBuild info) 1 =? newBuild));
      reflexivity.
  - intros fuel st w binfo e1 w1 r e w2 E Ei.
    cbn [wait_loop]. unfold poll at 1.
    unfold bind at 1 2. rewrite E. unfold bind at 1. rewrite Ei. reflexivity.
Qed.

Lemma wait_loop_success_exit_witness :
  wait_loop 1 "demo" 5 (mkFlags false false false) idle_world
  = (Ret (Some Sample.succeeded5, None),
     extend idle_world [EvGet Sample.build5_url]).
Proof.
  destruct (wait_loop_success_exit "demo" 5) as [H _].
  apply (H 0%nat (mkFlags false false false) idle_world Sample.succeeded5).
  - reflexivity.
  - reflexivity.
Defined.

(** C7 as stated fails where it says that the loop keeps polling while
    the build cannot be fetched: when no server can be reached, the fetch
    of build 6 fails, the job fetch fails too, and the loop, given five
    passes, returns the error of the job fetch in the first, without a
    sleep and without a second poll. *)
Lemma wait_loop_stops_polling :
  GetBuildInfo "demo" 6 offline_world
  = (Ret (None, Some (net_error "connection refused")),
     extend offline_world [EvGet Sample.build6_url]) /\
  wait_loop 5 "demo" 6 (mkFlags false false false) offline_world
  = (Ret (None, Some (net_error "connection refused")),
     extend offline_world [EvGet Sample.build6_url; EvGet Sample.job_url]) /\
  ~ (exists st' w',
       wait_loop 5 "demo" 6 (mkFlags false false false) offline_world
       = wait_loop 4 "demo" 6 st' w' /\
       In (EvSleep 1000) (trace w')).
Proof.
  split; [reflexivity | split; [reflexivity |]].
  intros (st' & w' & E & Hs).
  assert (P : exists l, snd (wait_loop 4 "demo" 6 st' w') = extend w' l)
    by (destruct (passive_wait_loop 4 "demo" 6 st' w') as (l & P & _); eauto).
  destruct P as [l P]. rewrite <- E in P. cbn [snd] in P.
  assert (T : In (EvSleep 1000) (trace (extend w' l)))
    by (cbn [extend trace]; apply in_or_app; left; exact Hs).
  rewrite <- P in T. cbn in T.
  destruct T as [T | [T | []]]; discriminate T.
Qed.

(** ** Triggering *)


(** A trigger request whose parameters parse is sent, once. *)
Lemma post_parsed name action params form w :
  url.ParseQuery params = (form, None) ->
  let theurl := trigger_url (JENKINS_SERVER w) name in
  post name action params w
  = (Ret match on_PostForm w (now w) theurl form with
         | HttpFail msg => Some (net_error msg)
         | HttpResponse _ _ => None
         end,
     emit (EvPostForm theurl form) w).
Proof.
  intros Hp. unfold post, bind, io.server, io.http_PostForm. rewrite Hp.
  cbn. destruct (on_PostForm w (now w) _ form); reflexivity.
Qed.


Lemma posts_emit_post u form w :
  posts (trace (emit (EvPostForm u form) w)) = S (posts (trace w)).
Proof. cbn [emit trace]. rewrite posts_app. cbn. lia. Qed.




(** ** The inconsistency check of the wait loop *)

(** The loop never returns the error of the inconsistency check unless it
    is entered with [weird] set, and [DoBuild] enters it with [weird]
    unset. *)
Lemma Bad_status_not_weird s :
  errors_New ("Bad status: " +:+ s) <> weird_state.
Proof. unfold weird_state. intros H. injection H as H. discriminate H. Qed.

Lemma Decode_error body m e : Decode body = (m, Some e) -> e = json_error.
Proof.
  unfold Decode. intros H.
  destruct body as [[] |]; injection H as _ H; congruence.
Qed.

Lemma get_error_not_weird name id w r e w' :
  get name id w = (Ret (r, Some e), w') -> e <> weird_state.
Proof.
  unfold get, getRemote. intros H. run_inv; try discriminate;
    repeat match goal with
           | H : Some _ = Some _ |- _ => injection H as <-
           | H : Decode _ = (_, Some _) |- _ => apply Decode_error in H as ->
           end;
    first [apply Bad_status_not_weird | discriminate].
Qed.

Lemma GetInfo_error_not_weird name w r e w' :
  GetInfo name w = (Ret (r, Some e), w') -> e <> weird_state.
Proof.
  unfold GetInfo. intros H. run_inv.
  eapply get_error_not_weird; eauto.
Qed.

Lemma poll_not_weird name newBuild st w r e w' :
  weird st = false ->
  poll name newBuild st w = (Ret (inl (r, Some e)), w') -> e <> weird_state.
Proof.
  unfold poll. intros Hw H. run_inv; try congruence.
  eapply GetInfo_error_not_weird; eauto.
Qed.

Lemma wait_loop_not_weird fuel name newBuild st w r e w' :
  weird st = false ->
  wait_loop fuel name newBuild st w = (Ret (r, Some e), w') -> e <> weird_state.
Proof.
  revert st w. induction fuel as [| fuel IH]; intros st w Hw H;
    cbn [wait_loop] in H; [discriminate |].
  apply bind_Ret_inv in H as ([res | st'] & w1 & E & H).
  - apply ret_Ret_inv in H as [-> ->]. eapply poll_not_weird; eauto.
  - apply (IH st' w1); [| exact H].
    rewrite (poll_keeps_weird _ _ _ _ _ _ E). exact Hw.
Qed.

(** One pass over the idle job: build 6 cannot be fetched and the job is
    not in the queue; the loop sleeps and goes round again. *)
Lemma poll_idle l :
  poll "demo" 6 (mkFlags false false false) (extend idle_world l)
  = (Ret (inr (mkFlags false false false)),
     extend idle_world (l ++ Sample.weird_pass)).
Proof.
  transitivity
    (Ret (A := (option JenkinsBuildInfo * option error) + flags)
         (inr (mkFlags false false false)),
     extend (extend (extend (extend idle_world l) [EvGet Sample.build6_url])
                    [EvGet Sample.job_url]) [EvSleep 1000]).
  - reflexivity.
  - rewrite !extend_extend. reflexivity.
Qed.

Lemma wait_loop_idle fuel l :
  wait_loop fuel "demo" 6 (mkFlags false false false) (extend idle_world l)
  = (Running,
     extend idle_world (l ++ concat (repeat Sample.weird_pass fuel))).
Proof.
  revert l. induction fuel as [| fuel IH]; intros l; cbn [wait_loop].
  - cbn [repeat concat]. rewrite app_nil_r. reflexivity.
  - rewrite (bind_eq_Ret _ _ _ _ _ (poll_idle l)). rewrite IH.
    cbn [repeat concat]. rewrite app_assoc. reflexivity.
Qed.

(** C1, on the code: the job stays out of the queue after the trigger
    request and build 6 never appears, so every pass of the loop is an
    inconsistent observation; however many passes the loop is given, it
    has not returned: it aborts neither on the second such pass nor on any
    later one. *)
Theorem DoBuild_never_aborts (fuel : nat) :
  DoBuild fuel "demo" "env=prod" true idle_world
  = (Running,
     extend idle_world
       (Sample.triggered ++ concat (repeat Sample.weird_pass fuel))).
Proof.
  transitivity (wait_loop fuel "demo" 6 (mkFlags false false false)
                  (extend idle_world Sample.triggered)).
  - reflexivity.
  - apply wait_loop_idle.
Qed.

(** ** What [GetArtifacts] returns *)

Lemma range_download_returns_artifacts name id output todo artifacts w l e w' :
  range_download name id output todo artifacts w = (Ret (l, e), w') ->
  l = artifacts.
Proof.
  revert w. induction todo as [| [outpath inpath] todo IH]; intros w H;
    cbn [range_download] in H.
  - run_inv. reflexivity.
  - run_inv; try reflexivity. eapply IH; eauto.
Qed.

(** Whatever [GetArtifacts] does, the list it returns is empty. *)
Lemma GetArtifacts_returns_nil name id output w l e w' :
  GetArtifacts name id output w = (Ret (l, e), w') -> l = [].
Proof.
  unfold GetArtifacts. intros H. run_inv; try reflexivity.
  eapply range_download_returns_artifacts; eauto.
Qed.

(** C3, on the code: build 5 succeeded and has one artifact; [GetArtifacts]
    fetches it, creates the directory and the file under [dest] and copies
    the bytes, all without error, and returns the empty list, not the one
    path it wrote. *)
Theorem GetArtifacts_returns_no_paths :
  GetArtifacts "demo" 5 "dest" artifact_world
  = (Ret ([], None),
     extend artifact_world
       [EvGet Sample.build5_url; EvGet Sample.artifact5_url;
        EvMkdirAll "dest/out"; EvCreate "dest/out/a.txt";
        EvCopy "dest/out/a.txt" (RawBody "hello")]) /\
  size (Build.Artifacts Sample.succeeded5) = 1%nat.
Proof. split; reflexivity. Qed.

(** ** The address [GetArtifactReader] asks *)

(** [GetArtifactReader] builds the address of the artifact from the
    identifier it was called with. *)
Lemma GetArtifactReader_address name id artifact w info w1 :
  GetBuildInfo name id w = (Ret (Some info, None), w1) ->
  Build.Result info = "SUCCESS" ->
  GetArtifactReader name id artifact w
  = getRemote (artifact_url (JENKINS_SERVER w1) name id
                 (default "" (Build.Artifacts info !! artifact))) w1.
Proof.
  intros E Hr. unfold GetArtifactReader. rewrite (bind_eq_Ret _ _ _ _ _ E).
  cbn. rewrite Hr. reflexivity.
Qed.

(** C4, on the code: asked for the artifact of the latest build (-1),
    [GetArtifactReader] checks build 5, to which -1 resolves, and then asks
    for the artifact of build "-1", which the server does not have;
    [GetArtifacts], asked the same, asks for the artifact of build 5. *)
Theorem GetArtifactReader_asks_unresolved_id :
  GetArtifactReader "demo" (-1) "out/a.txt" artifact_world
  = (Ret (None,
          Some (errors_New ("Bad status: 404 from "
                            +:+ Sample.artifact_latest_url))),
     extend artifact_world
       [EvGet Sample.job_url; EvGet Sample.build5_url;
        EvGet Sample.artifact_latest_url]) /\
  GetArtifacts "demo" (-1) "dest" artifact_world
  = (Ret ([], None),
     extend artifact_world
       [EvGet Sample.job_url; EvGet Sample.build5_url;
        EvGet Sample.artifact5_url;
        EvMkdirAll "dest/out"; EvCreate "dest/out/a.txt";
        EvCopy "dest/out/a.txt" (RawBody "hello")]).
Proof. split; reflexivity. Qed.

(** ** How lenient the decoders are *)

(** The two-result assertions give the zero value on another type. *)
Lemma string_ok_zero v : (forall s, v <> IString s) -> fst (Assert.string_ok v) = "".
Proof. destruct v; intros H; try reflexivity. destruct (H s eq_refl). Qed.

Lemma bool_ok_zero v : (forall b, v <> IBool b) -> fst (Assert.bool_ok v) = false.
Proof. destruct v; intros H; try reflexivity. destruct (H b eq_refl). Qed.

Lemma float64_ok_zero v :
  (forall f, v <> IFloat64 f) -> fst (Assert.float64_ok v) = S754_zero false.
Proof. destruct v; intros H; try reflexivity. destruct (H f eq_refl). Qed.

(** [getRemote] returns a body whenever it returns no error. *)
Lemma getRemote_body u w r w' :
  getRemote u w = (Ret (r, None), w') -> exists body, r = Some body.
Proof.
  unfold getRemote, bind, io.http_Get. cbn.
  destruct (on_Get w (now w) u) as [msg | status body]; cbn; [discriminate |].
  destruct (negb (status =? 200)); cbn; [discriminate |].
  intros H. injection H as <- _. eauto.
Qed.

Lemma getRemote_returns u w : exists r, fst (getRemote u w) = Ret r.
Proof.
  unfold getRemote, bind, io.http_Get. cbn.
  destruct (on_Get w (now w) u) as [msg | status body]; cbn; [eauto |].
  destruct (negb (status =? 200)); cbn; eauto.
Qed.

Lemma get_returns name id w : exists r, fst (get name id w) = Ret r.
Proof.
  unfold get. unfold bind at 1. cbn. unfold bind at 1.
  destruct (getRemote _ w) as [[[resp err] | p |] w1] eqn:E.
  - destruct err as [e |]; cbn; [eauto |].
    destruct (getRemote_body _ _ _ _ E) as [body ->]. cbn.
    destruct (Decode body) as [retVal [e |]]; cbn; eauto.
  - destruct (getRemote_returns (api_url (JENKINS_SERVER w) name id) w) as [r Hr].
    rewrite E in Hr. discriminate.
  - destruct (getRemote_returns (api_url (JENKINS_SERVER w) name id) w) as [r Hr].
    rewrite E in Hr. discriminate.
Qed.

(** [GetInfo] of the first source file never panics and always returns:
    whatever the document, its fields are read leniently. *)
Lemma GetInfo_returns name w : exists r, fst (GetInfo name w) = Ret r.
Proof.
  unfold GetInfo, bind. destruct (get_returns name (-1) w) as [[json err] Hr].
  destruct (get name (-1) w) as [o w1]. cbn in Hr. subst o.
  destruct (negb (is_nil err) || is_nil json); cbn; eauto.
Qed.

(** The [range artifacts] loop of [GetBuildInfo] returns when every element
    of the list is an object, and panics at the first that is not. *)
Lemma range_artifacts_objects l acc w :
  forallb is_object l = true ->
  exists m, range_artifacts l acc w = (Ret m, w).
Proof.
  revert acc. induction l as [| v l IH]; intros acc Hl; cbn [range_artifacts].
  - eexists. reflexivity.
  - cbn [forallb] in Hl. apply andb_prop in Hl as [Hv Hl].
    destruct v; try discriminate. cbn.
    match goal with |- context [if ?c then _ else _] => destruct c end;
      apply IH, Hl.
Qed.

Lemma range_artifacts_not_object v l acc w :
  is_object v = false ->
  range_artifacts (v :: l) acc w = (Panicked InterfaceConversion, w).
Proof. destruct v; intros H; try discriminate; reflexivity. Qed.

(** C5, on the code: a build document that is a JSON object, with a number
    where an artifact entry should be, makes [GetBuildInfo] panic; the
    empty object decodes to the zero records in the first source file and
    makes both decoders of the second source file panic. *)
Theorem GetBuildInfo_panics_on_malformed_artifact :
  GetBuildInfo "demo" 5 malformed_world
  = (Panicked InterfaceConversion,
     extend malformed_world [EvGet Sample.build5_url]) /\
  fst (GetBuildInfo "demo" 5 empty_world)
  = Ret (Some (mkJenkinsBuildInfo "" 0 ∅ false (S754_zero false)
                 (S754_zero false) "BUILDING" (S754_zero false) ""), None) /\
  fst (GetInfo "demo" empty_world)
  = Ret (Some (mkJenkinsInfo "" "" "" false false 0 "" 0 ""), None) /\
  fst (Part000.GetBuildInfo "demo" 5 empty_world)
  = Panicked InterfaceConversion /\
  fst (Part000.GetInfo "demo" empty_world) = Panicked InterfaceConversion.
Proof. repeat split; reflexivity. Qed.

(** ** A whole run *)

(** The build is triggered once, is waited for through "not visible",
    "queued" and "building", and is returned as it was fetched last. *)
Example DoBuild_scenario :
  DoBuild 4 "demo" "env=prod" true Scenario.world
  = (Ret (Some Scenario.finished6, None),
     extend Scenario.world Scenario.requests) /\
  posts Scenario.requests = 1%nat.
Proof. split; reflexivity. Qed.

(** * Further properties *)

(** ** Fetching and decoding documents *)

Lemma get_run name id w :
  let theurl := api_url (JENKINS_SERVER w) name id in
  get name id w
  = (Ret (fetched (on_Get w (now w) theurl) theurl), emit (EvGet theurl) w).
Proof.
  unfold get, getRemote, bind, io.server, io.http_Get, fetched. cbn.
  destruct (on_Get w (now w) _) as [msg | status body]; cbn; [reflexivity |].
  destruct (status =? 200); cbn; [| reflexivity].
  destruct body as [[] |]; reflexivity.
Qed.

(** X1: [GetInfo] never panics and makes exactly one request, a GET for the
    job document; what it returns is fixed by the answer: a transport
    failure and a status other than 200 are errors, a body that is not a
    JSON object or [null] is a decoding error, [null] gives [(nil, nil)],
    and an object is decoded. *)
Theorem GetInfo_by_answer (name : string) (w : World) :
  let theurl := api_url (JENKINS_SERVER w) name (-1) in
  GetInfo name w
  = (Ret match on_Get w (now w) theurl with
         | HttpFail msg => (None, Some (net_error msg))
         | HttpResponse status body =>
             if status =? 200 then
               match body with
               | JsonBody (IMap m) => (Some (decode_JenkinsInfo (Some m)), None)
               | JsonBody INil => (None, None)
               | _ => (None, Some json_error)
               end
             else (None, Some (errors_New ("Bad status: " +:+ GoInt.Itoa status
                                             +:+ " from " +:+ theurl)))
         end,
     emit (EvGet theurl) w).
Proof.
  cbn zeta. unfold GetInfo. rewrite (bind_eq_Ret _ _ _ _ _ (get_run name (-1) w)).
  unfold fetched.
  destruct (on_Get w (now w) _) as [msg | status body]; cbn; [reflexivity |].
  destruct (status =? 200); cbn; [| reflexivity].
  destruct body as [[] |]; reflexivity.
Qed.

Lemma range_artifacts_panics l acc w :
  forallb is_object l = false ->
  range_artifacts l acc w = (Panicked InterfaceConversion, w).
Proof.
  revert acc. induction l as [| v l IH]; intros acc Hl; [discriminate |].
  destruct (is_object v) eqn:Hv.
  - cbn [forallb] in Hl. rewrite Hv in Hl. cbn in Hl.
    destruct v; try discriminate. cbn.
    match goal with |- context [if ?c then _ else _] => destruct c end;
      apply IH, Hl.
  - apply range_artifacts_not_object, Hv.
Qed.

Lemma decode_JenkinsBuildInfo_run json w :
  let artifacts := fst (Assert.slice_ok (index json "artifacts")) in
  (forallb is_object artifacts = true ->
   exists info, decode_JenkinsBuildInfo json w = (Ret info, w)) /\
  (forallb is_object artifacts = false ->
   decode_JenkinsBuildInfo json w = (Panicked InterfaceConversion, w)).
Proof.
  cbn zeta. unfold decode_JenkinsBuildInfo, bind. split; intros H.
  - destruct (range_artifacts_objects _ ∅ w H) as [m ->]. cbn. eauto.
  - rewrite (range_artifacts_panics _ ∅ w H). reflexivity.
Qed.

(** X2: for a literal identifier, [GetBuildInfo] panics exactly when the build
    document is a JSON object whose [artifacts] list has an element that is
    not an object; it has no other panic. *)
Theorem GetBuildInfo_panics_iff (name : string) (id : Z) (w : World) (p : panic) :
  id <> -1 -> id <> -2 ->
  (fst (GetBuildInfo name id w) = Panicked p <->
   p = InterfaceConversion /\
   exists m,
     on_Get w (now w) (api_url (JENKINS_SERVER w) name id)
     = HttpResponse 200 (JsonBody (IMap m)) /\
     forallb is_object (fst (Assert.slice_ok (index (Some m) "artifacts")))
     = false).
Proof.
  intros H1 H2. unfold GetBuildInfo.
  assert (S : sanitizeID name id w = (Ret (id, None), w)).
  { unfold sanitizeID.
    destruct (Z.eqb_spec id (-1)); [contradiction |].
    destruct (Z.eqb_spec id (-2)); [contradiction |]. reflexivity. }
  rewrite (bind_eq_Ret _ _ _ _ _ S). cbn iota beta.
  rewrite (bind_eq_Ret _ _ _ _ _ (get_run name id w)). unfold fetched.
  destruct (on_Get w (now w) _) as [msg | status body].
  { cbn. split; [discriminate | intros (_ & m & E & _); discriminate]. }
  destruct (Z.eqb_spec status 200) as [-> | Hs].
  2:{ cbn. split; [discriminate |].
      intros (_ & m & E & _). injection E as E _. contradiction. }
  destruct body as [v | bytes].
  2:{ cbn. split; [discriminate | intros (_ & m & E & _); discriminate]. }
  destruct v; cbn [negb is_nil orb];
    try (cbn; split; [discriminate | intros (_ & m' & E & _); discriminate]).
  destruct (decode_JenkinsBuildInfo_run (Some m) (emit (EvGet (api_url (JENKINS_SERVER w) name id)) w))
    as [Hok Hbad].
  destruct (forallb is_object (fst (Assert.slice_ok (index (Some m) "artifacts")))) eqn:E.
  - destruct (Hok eq_refl) as [info Hi]. unfold bind. rewrite Hi. cbn.
    split; [discriminate |].
    intros (_ & m' & E' & F). injection E' as <-. unfold index in E. congruence.
  - unfold bind. rewrite (Hbad eq_refl). cbn. split.
    + intros [= <-]. split; [reflexivity |]. exists m. auto.
    + intros (-> & _). reflexivity.
Qed.

Lemma GetBuildInfo_panics_iff_witness :
  fst (GetBuildInfo "demo" 5 malformed_world) = Panicked InterfaceConversion.
Proof.
  apply (GetBuildInfo_panics_iff "demo" 5 malformed_world InterfaceConversion);
    [lia | lia |].
  split; [reflexivity |].
  exists (list_to_map
            [("fullDisplayName", IString "demo #5"); ("number", Sample.num 5);
             ("building", IBool false); ("result", IString "SUCCESS");
             ("artifacts", ISlice [Sample.num 1])]).
  split; reflexivity.
Defined.

(** ** Resolution inside the callers *)

Lemma sanitizeID_literal name id w :
  id <> -1 -> id <> -2 -> sanitizeID name id w = (Ret (id, None), w).
Proof.
  intros H1 H2. unfold sanitizeID.
  destruct (Z.eqb_spec id (-1)); [contradiction |].
  destruct (Z.eqb_spec id (-2)); [contradiction |]. reflexivity.
Qed.

Lemma sanitizeID_latest name w info w1 :
  GetInfo name w = (Ret (Some info, None), w1) ->
  sanitizeID name (-1) w
  = (Ret (if LastBuild info =? 0
          then (-1, Some (errors_New "no build available"))
          else (LastBuild info, None)), w1).
Proof.
  intros E. unfold sanitizeID. cbn [Z.eqb Pos.eqb].
  rewrite (bind_eq_Ret _ _ _ _ _ E). cbn.
  destruct (LastBuild info =? 0); reflexivity.
Qed.

Lemma sanitizeID_latest_stable name w info w1 :
  GetInfo name w = (Ret (Some info, None), w1) ->
  sanitizeID name (-2) w
  = (Ret (if LastStableBuild info =? 0
          then (-2, Some (errors_New "no stable build available"))
          else (LastStableBuild info, None)), w1).
Proof.
  intros E. unfold sanitizeID. cbn [Z.eqb Pos.eqb].
  rewrite (bind_eq_Ret _ _ _ _ _ E). cbn.
  destruct (LastStableBuild info =? 0); reflexivity.
Qed.

Lemma sanitizeID_error name id w r e w1 :
  id = -1 \/ id = -2 ->
  GetInfo name w = (Ret (r, Some e), w1) ->
  sanitizeID name id w = (Ret (id, Some e), w1).
Proof.
  intros [-> | ->] E; unfold sanitizeID; cbn [Z.eqb Pos.eqb];
    rewrite (bind_eq_Ret _ _ _ _ _ E); reflexivity.
Qed.

(** X3: an error of the job fetch is passed on as it is, and nothing more is
    requested: by the resolver (which returns the symbolic identifier with
    it), by [GetBuildInfo], [GetArtifacts] and [GetArtifactReader] for a
    symbolic identifier, and by [DoBuild]. *)
Theorem job_fetch_error_passed_on (name : string) (w w1 : World)
  (r : option JenkinsInfo) (e : error) :
  GetInfo name w = (Ret (r, Some e), w1) ->
  (forall id, id = -1 \/ id = -2 ->
     sanitizeID name id w = (Ret (id, Some e), w1) /\
     GetBuildInfo name id w = (Ret (None, Some e), w1) /\
     (forall output, GetArtifacts name id output w = (Ret ([], Some e), w1)) /\
     (forall artifact,
        GetArtifactReader name id artifact w = (Ret (None, Some e), w1))) /\
  (forall fuel params wait,
     DoBuild fuel name params wait w = (Ret (None, Some e), w1)).
Proof.
  intros E. split.
  - intros id Hid. pose proof (sanitizeID_error _ _ _ _ _ _ Hid E) as S.
    assert (B : GetBuildInfo name id w = (Ret (None, Some e), w1)).
    { unfold GetBuildInfo. rewrite (bind_eq_Ret _ _ _ _ _ S). reflexivity. }
    repeat split; auto.
    + intros output. unfold GetArtifacts.
      rewrite (bind_eq_Ret _ _ _ _ _ S). reflexivity.
    + intros artifact. unfold GetArtifactReader.
      rewrite (bind_eq_Ret _ _ _ _ _ B). reflexivity.
  - intros fuel params wait. unfold DoBuild.
    rewrite (bind_eq_Ret _ _ _ _ _ E). reflexivity.
Qed.

Lemma job_fetch_error_passed_on_witness :
  GetArtifacts "demo" (-1) "dest" offline_world
  = (Ret ([], Some (net_error "connection refused")),
     extend offline_world [EvGet Sample.job_url]).
Proof.
  destruct (job_fetch_error_passed_on "demo" offline_world
              (extend offline_world [EvGet Sample.job_url]) None
              (net_error "connection refused") eq_refl) as [H _].
  destruct (H (-1) (or_introl eq_refl)) as (_ & _ & G & _).
  apply G.
Defined.

(** X4: for a job without builds, "latest" fails with "no build available" in
    [GetBuildInfo], [GetArtifacts] and [GetArtifactReader] after the one
    request for the job; for a job without stable build, "latest stable"
    fails likewise with "no stable build available". *)
Theorem no_build_passed_on (name : string) (w w1 : World) (info : JenkinsInfo) :
  GetInfo name w = (Ret (Some info, None), w1) ->
  (LastBuild info = 0 ->
     let e := errors_New "no build available" in
     GetBuildInfo name (-1) w = (Ret (None, Some e), w1) /\
     (forall output, GetArtifacts name (-1) output w = (Ret ([], Some e), w1)) /\
     (forall artifact,
        GetArtifactReader name (-1) artifact w = (Ret (None, Some e), w1))) /\
  (LastStableBuild info = 0 ->
     let e := errors_New "no stable build available" in
     GetBuildInfo name (-2) w = (Ret (None, Some e), w1) /\
     (forall output, GetArtifacts name (-2) output w = (Ret ([], Some e), w1)) /\
     (forall artifact,
        GetArtifactReader name (-2) artifact w = (Ret (None, Some e), w1))).
Proof.
  intros E. split; intros H0 e.
  - pose proof (sanitizeID_latest _ _ _ _ E) as S. rewrite H0 in S. cbn in S.
    assert (B : GetBuildInfo name (-1) w = (Ret (None, Some e), w1)).
    { unfold GetBuildInfo. rewrite (bind_eq_Ret _ _ _ _ _ S). reflexivity. }
    repeat split; auto.
    + intros output. unfold GetArtifacts.
      rewrite (bind_eq_Ret _ _ _ _ _ S). reflexivity.
    + intros artifact. unfold GetArtifactReader.
      rewrite (bind_eq_Ret _ _ _ _ _ B). reflexivity.
  - pose proof (sanitizeID_latest_stable _ _ _ _ E) as S. rewrite H0 in S.
    cbn in S.
    assert (B : GetBuildInfo name (-2) w = (Ret (None, Some e), w1)).
    { unfold GetBuildInfo. rewrite (bind_eq_Ret _ _ _ _ _ S). reflexivity. }
    repeat split; auto.
    + intros output. unfold GetArtifacts.
      rewrite (bind_eq_Ret _ _ _ _ _ S). reflexivity.
    + intros artifact. unfold GetArtifactReader.
      rewrite (bind_eq_Ret _ _ _ _ _ B). reflexivity.
Qed.

Lemma no_build_passed_on_witness :
  GetBuildInfo "demo" (-1) empty_world
  = (Ret (None, Some (errors_New "no build available")),
     extend empty_world [EvGet Sample.job_url]).
Proof.
  destruct (no_build_passed_on "demo" empty_world
              (extend empty_world [EvGet Sample.job_url])
              (mkJenkinsInfo "" "" "" false false 0 "" 0 "") eq_refl) as [H _].
  destruct (H eq_refl) as [G _]. exact G.
Defined.

(** X5: with a positive [LastBuild], a request for "latest" is the request for
    build [LastBuild] made after the job fetch, in [GetBuildInfo] and in
    [GetArtifacts]; likewise "latest stable" and [LastStableBuild]. *)
Theorem latest_is_LastBuild (name : string) (w w1 : World) (info : JenkinsInfo) :
  GetInfo name w = (Ret (Some info, None), w1) ->
  (0 < LastBuild info ->
     GetBuildInfo name (-1) w = GetBuildInfo name (LastBuild info) w1 /\
     forall output,
       GetArtifacts name (-1) output w
       = GetArtifacts name (LastBuild info) output w1) /\
  (0 < LastStableBuild info ->
     GetBuildInfo name (-2) w = GetBuildInfo name (LastStableBuild info) w1 /\
     forall output,
       GetArtifacts name (-2) output w
       = GetArtifacts name (LastStableBuild info) output w1).
Proof.
  intros E. split; intros Hpos.
  - pose proof (sanitizeID_latest _ _ _ _ E) as S.
    destruct (Z.eqb_spec (LastBuild info) 0) as [H0 | _]; [lia |].
    assert (L : sanitizeID name (LastBuild info) w1
                = (Ret (LastBuild info, None), w1))
      by (apply sanitizeID_literal; lia).
    split; [| intros output]; unfold GetBuildInfo, GetArtifacts;
      rewrite (bind_eq_Ret _ _ _ _ _ S), (bind_eq_Ret _ _ _ _ _ L);
      reflexivity.
  - pose proof (sanitizeID_latest_stable _ _ _ _ E) as S.
    destruct (Z.eqb_spec (LastStableBuild info) 0) as [H0 | _]; [lia |].
    assert (L : sanitizeID name (LastStableBuild info) w1
                = (Ret (LastStableBuild info, None), w1))
      by (apply sanitizeID_literal; lia).
    split; [| intros output]; unfold GetBuildInfo, GetArtifacts;
      rewrite (bind_eq_Ret _ _ _ _ _ S), (bind_eq_Ret _ _ _ _ _ L);
      reflexivity.
Qed.

Lemma latest_is_LastBuild_witness :
  GetBuildInfo "demo" (-1) idle_world
  = GetBuildInfo "demo" 5 (extend idle_world [EvGet Sample.job_url]).
Proof.
  destruct (latest_is_LastBuild "demo" idle_world
              (extend idle_world [EvGet Sample.job_url])
              (Sample.job_info false) eq_refl) as [H _].
  destruct H as [G _]; [cbn; lia | exact G].
Defined.

Lemma GetInfo_object name w m :
  on_Get w (now w) (api_url (JENKINS_SERVER w) name (-1))
  = HttpResponse 200 (JsonBody (IMap m)) ->
  GetInfo name w
  = (Ret (Some (decode_JenkinsInfo (Some m)), None),
     emit (EvGet (api_url (JENKINS_SERVER w) name (-1))) w).
Proof.
  intros E. unfold GetInfo. rewrite (bind_eq_Ret _ _ _ _ _ (get_run name (-1) w)).
  rewrite E. reflexivity.
Qed.

Lemma decode_LastBuild json :
  LastBuild (decode_JenkinsInfo json)
  = match index json "lastBuild" with
    | INil => 0
    | v => GoInt.truncate
             (fst (Assert.float64_ok (index (fst (Assert.map_ok v)) "number")))
    end.
Proof.
  unfold decode_JenkinsInfo.
  destruct (index json "lastBuild"), (index json "lastStableBuild"); reflexivity.
Qed.

Lemma decode_LastBuildUrl json :
  LastBuildUrl (decode_JenkinsInfo json)
  = match index json "lastBuild" with
    | INil => ""
    | v => fst (Assert.string_ok (index (fst (Assert.map_ok v)) "url"))
    end.
Proof.
  unfold decode_JenkinsInfo.
  destruct (index json "lastBuild"), (index json "lastStableBuild"); reflexivity.
Qed.

(** X6: a job document in which [lastBuild] is absent, [null], not an object,
    or an object without a numeric [number] decodes to [LastBuild] 0 with
    an empty [LastBuildUrl] where it is no object, and makes "latest" fail
    with "no build available". *)
Theorem latest_without_lastBuild (name : string) (w : World)
  (m : gmap string iface) :
  on_Get w (now w) (api_url (JENKINS_SERVER w) name (-1))
  = HttpResponse 200 (JsonBody (IMap m)) ->
  (forall o f, m !! "lastBuild" = Some (IMap o) ->
               o !! "number" <> Some (IFloat64 f)) ->
  LastBuild (decode_JenkinsInfo (Some m)) = 0 /\
  ((forall o, m !! "lastBuild" <> Some (IMap o)) ->
   LastBuildUrl (decode_JenkinsInfo (Some m)) = "") /\
  sanitizeID name (-1) w
  = (Ret (-1, Some (errors_New "no build available")),
     emit (EvGet (api_url (JENKINS_SERVER w) name (-1))) w).
Proof.
  intros E Hn.
  assert (L : LastBuild (decode_JenkinsInfo (Some m)) = 0).
  { rewrite decode_LastBuild. cbn.
    destruct (m !! "lastBuild") as [[| | | | | o] |] eqn:Eo; cbn; try reflexivity.
    specialize (Hn o). destruct (o !! "number") as [[] |]; cbn; try reflexivity.
    destruct (Hn f eq_refl eq_refl). }
  split; [exact L | split].
  - intros Ho. rewrite decode_LastBuildUrl. cbn.
    destruct (m !! "lastBuild") as [[| | | | | o] |] eqn:Eo; cbn; try reflexivity.
    destruct (Ho o eq_refl).
  - rewrite (sanitizeID_latest _ _ _ _ (GetInfo_object _ _ _ E)), L. reflexivity.
Qed.

Lemma latest_without_lastBuild_witness :
  sanitizeID "demo" (-1) empty_world
  = (Ret (-1, Some (errors_New "no build available")),
     emit (EvGet Sample.job_url) empty_world).
Proof.
  refine (proj2 (proj2 (latest_without_lastBuild "demo" empty_world ∅ eq_refl _))).
  intros o f H. discriminate H.
Defined.

(** ** What a build document decodes to *)

Lemma decode_JenkinsBuildInfo_inv json w info w' :
  decode_JenkinsBuildInfo json w = (Ret info, w') ->
  exists arts w1,
    range_artifacts (fst (Assert.slice_ok (index json "artifacts"))) ∅ w
    = (Ret arts, w1) /\
    Build.Artifacts info = arts /\
    Build.Result info = match index json "result" with
                        | INil => "BUILDING"
                        | v => fst (Assert.string_ok v)
                        end.
Proof.
  unfold decode_JenkinsBuildInfo. intros H.
  apply bind_Ret_inv in H as (arts & w1 & E & H).
  apply ret_Ret_inv in H as [<- _]. eauto.
Qed.

(** X7: the result of the decoded build is SUCCESS exactly when the document
    has the string "SUCCESS" as its [result], and BUILDING exactly when
    [result] is absent, [null] or the string "BUILDING"; a [result] of
    another type decodes to the empty string. *)
Theorem Result_by_document (json : jsonmap) (w w' : World)
  (info : JenkinsBuildInfo) :
  decode_JenkinsBuildInfo json w = (Ret info, w') ->
  (Build.Result info = "SUCCESS" <-> index json "result" = IString "SUCCESS") /\
  (Build.Result info = "BUILDING" <->
   index json "result" = INil \/ index json "result" = IString "BUILDING") /\
  ((forall s, index json "result" <> IString s) ->
   index json "result" <> INil -> Build.Result info = "").
Proof.
  intros H. apply decode_JenkinsBuildInfo_inv in H as (arts & w1 & _ & _ & R).
  rewrite R. destruct (index json "result") as [| b | f | s | l | o]; cbn.
  all: repeat split; try discriminate; try tauto; try congruence.
  all: try (intros [H | H]; discriminate H).
  - intros ->. auto.
  - intros [H | H]; [discriminate H | congruence].
Qed.

Lemma Result_by_document_witness :
  Build.Result Sample.failed5 = "SUCCESS" <->
  index (Some (list_to_map
                 [("fullDisplayName", IString "demo #5"); ("number", Sample.num 5);
                  ("building", IBool false); ("result", IString "FAILURE");
                  ("artifacts", ISlice [])])) "result" = IString "SUCCESS".
Proof.
  refine (proj1 (Result_by_document _ idle_world idle_world Sample.failed5 _)).
  reflexivity.
Defined.

Lemma string_ok_not_empty (o : gmap string iface) (k s : string) :
  fst (Assert.string_ok (index (Some o) k)) = s -> s <> "" ->
  o !! k = Some (IString s).
Proof.
  cbn. destruct (o !! k) as [[] |]; cbn; intros <- H; congruence.
Qed.

Lemma range_artifacts_sound l acc w m w' :
  range_artifacts l acc w = (Ret m, w') ->
  forall k v, m !! k = Some v ->
    acc !! k = Some v \/
    (k <> "" /\ v <> "" /\
     exists o, In (IMap o) l /\
       o !! "displayPath" = Some (IString k) /\
       o !! "relativePath" = Some (IString v)).
Proof.
  revert acc w. induction l as [| a l IH]; intros acc w H k v Hk;
    cbn [range_artifacts] in H.
  - apply ret_Ret_inv in H as [<- _]. auto.
  - destruct a as [| | | | | o]; try discriminate H.
    cbn [Assert.map_must must] in H. rewrite bind_ret_l in H.
    remember (fst (Assert.string_ok (index (Some o) "displayPath"))) as dp eqn:Ed.
    remember (fst (Assert.string_ok (index (Some o) "relativePath"))) as rp eqn:Er.
    symmetry in Ed, Er. cbn zeta in H.
    assert (Later : forall acc',
               range_artifacts l acc' w = (Ret m, w') ->
               (forall k v, acc' !! k = Some v ->
                  acc !! k = Some v \/ (k = dp /\ v = rp /\ dp <> "" /\ rp <> "")) ->
               acc !! k = Some v \/
               (k <> "" /\ v <> "" /\
                exists o', In (IMap o') (IMap o :: l) /\
                  o' !! "displayPath" = Some (IString k) /\
                  o' !! "relativePath" = Some (IString v))).
    { intros acc' H' Hacc.
      destruct (IH _ _ H' k v Hk) as [Ha | (Hk1 & Hv1 & o' & Hin & Ho)].
      - destruct (Hacc _ _ Ha) as [? | (-> & -> & Hd & Hr)]; [auto |].
        right. repeat split; auto. exists o. split; [left; reflexivity |].
        split; eapply string_ok_not_empty; eauto.
      - right. repeat split; auto. exists o'. split; [right; exact Hin | exact Ho]. }
    destruct (String.eqb_spec dp "") as [Hd | Hd];
      destruct (String.eqb_spec rp "") as [Hr | Hr]; cbn [negb andb] in H;
      try (apply (Later acc H); auto; fail).
    apply (Later _ H). intros k' v' Hl.
    destruct (decide (dp = k')) as [<- | Hne].
    + rewrite lookup_insert_eq in Hl. injection Hl as <-. auto.
    + rewrite lookup_insert_ne in Hl by exact Hne. auto.
Qed.

(** X8: every entry of the artifact map of a fetched build has a non-empty
    output path and a non-empty remote path. *)
Theorem Artifacts_paths_not_empty (name : string) (id : Z) (w w' : World)
  (info : JenkinsBuildInfo) :
  GetBuildInfo name id w = (Ret (Some info, None), w') ->
  forall k v, Build.Artifacts info !! k = Some v -> k <> "" /\ v <> "".
Proof.
  unfold GetBuildInfo. intros H k v Hk. run_inv.
  match goal with
  | D : decode_JenkinsBuildInfo _ _ = (Ret _, _) |- _ =>
      apply decode_JenkinsBuildInfo_inv in D as (arts & wr & R & A & _)
  end.
  injection H as <-. rewrite A in Hk.
  destruct (range_artifacts_sound _ _ _ _ _ R k v Hk) as [Ha | (Hk1 & Hv1 & _)];
    [| auto].
  rewrite lookup_empty in Ha. discriminate.
Qed.

Lemma Artifacts_paths_not_empty_witness :
  "out/a.txt" <> "" /\ "target/a.txt" <> "".
Proof.
  apply (Artifacts_paths_not_empty "demo" 5 idle_world
           (extend idle_world [EvGet Sample.build5_url]) Sample.succeeded5);
    reflexivity.
Defined.

(** X9: every entry of the artifact map comes from an element of the
    document's [artifacts] list: an object whose [displayPath] is the key
    and whose [relativePath] is the value. *)
Theorem Artifacts_from_document (json : jsonmap) (w w' : World)
  (info : JenkinsBuildInfo) :
  decode_JenkinsBuildInfo json w = (Ret info, w') ->
  forall k v, Build.Artifacts info !! k = Some v ->
    exists o,
      In (IMap o) (fst (Assert.slice_ok (index json "artifacts"))) /\
      o !! "displayPath" = Some (IString k) /\
      o !! "relativePath" = Some (IString v).
Proof.
  intros H k v Hk.
  apply decode_JenkinsBuildInfo_inv in H as (arts & w1 & R & A & _).
  rewrite A in Hk.
  destruct (range_artifacts_sound _ _ _ _ _ R k v Hk) as [Ha | (_ & _ & Ho)];
    [| exact Ho].
  rewrite lookup_empty in Ha. discriminate.
Qed.

Lemma Artifacts_from_document_witness :
  exists o,
    In (IMap o)
       (fst (Assert.slice_ok
               (index (fst (Assert.map_ok Sample.build5)) "artifacts"))) /\
    o !! "displayPath" = Some (IString "out/a.txt") /\
    o !! "relativePath" = Some (IString "target/a.txt").
Proof.
  apply (Artifacts_from_document (fst (Assert.map_ok Sample.build5))
           idle_world idle_world Sample.succeeded5 eq_refl
           "out/a.txt" "target/a.txt").
  reflexivity.
Defined.

(** ** Fuel and flags of the wait loop *)

Lemma settled_ret {A} (a : A) : settled (ret a).
Proof. intros w. discriminate. Qed.

Lemma settled_throw {A} p : settled (@throw A p).
Proof. intros w. discriminate. Qed.

Lemma settled_bind {A B} (m : M A) (k : A -> M B) :
  settled m -> (forall a, settled (k a)) -> settled (bind m k).
Proof.
  intros Hm Hk w. unfold bind. specialize (Hm w).
  destruct (m w) as [[a | p |] w1]; cbn in *;
    [apply Hk | discriminate | congruence].
Qed.

Lemma settled_deref {A} (p : option A) : settled (deref p).
Proof. destruct p; [apply settled_ret | apply settled_throw]. Qed.

Lemma settled_must {A} (p : option A) : settled (must p).
Proof. destruct p; [apply settled_ret | apply settled_throw]. Qed.

Lemma settled_server : settled io.server.
Proof. intros w. discriminate. Qed.

Lemma settled_http_Get u : settled (io.http_Get u).
Proof. intros w. discriminate. Qed.

Lemma settled_time_Sleep ms : settled (io.time_Sleep ms).
Proof. intros w. discriminate. Qed.

Create HintDb settled.

Ltac settled_step :=
  match goal with
  | |- settled (bind _ _) => apply settled_bind; [| intros ?]
  | |- settled (ret _) => apply settled_ret
  | |- settled (throw _) => apply settled_throw
  | |- settled (deref _) => apply settled_deref
  | |- settled (must _) => apply settled_must
  | |- settled io.server => apply settled_server
  | |- settled (io.http_Get _) => apply settled_http_Get
  | |- settled (io.time_Sleep _) => apply settled_time_Sleep
  | |- settled (match ?x with _ => _ end) => destruct x
  | |- settled _ => solve [auto with settled]
  end.

Ltac settled_auto := repeat (settled_step; cbn beta iota zeta).

Lemma settled_getRemote u : settled (getRemote u).
Proof. unfold getRemote. settled_auto. Qed.
#[local] Hint Resolve settled_getRemote : settled.

Lemma settled_get name id : settled (get name id).
Proof. unfold get. settled_auto. Qed.
#[local] Hint Resolve settled_get : settled.

Lemma settled_GetInfo name : settled (GetInfo name).
Proof. unfold GetInfo. settled_auto. Qed.
#[local] Hint Resolve settled_GetInfo : settled.

Lemma settled_sanitizeID name id : settled (sanitizeID name id).
Proof. unfold sanitizeID. settled_auto. Qed.
#[local] Hint Resolve settled_sanitizeID : settled.

Lemma settled_range_artifacts l acc : settled (range_artifacts l acc).
Proof.
  revert acc. induction l as [| a l IH]; intros acc; cbn [range_artifacts];
    settled_auto.
Qed.
#[local] Hint Resolve settled_range_artifacts : settled.

Lemma settled_GetBuildInfo name id : settled (GetBuildInfo name id).
Proof. unfold GetBuildInfo, decode_JenkinsBuildInfo. settled_auto. Qed.
#[local] Hint Resolve settled_GetBuildInfo : settled.

Lemma settled_poll name newBuild st : settled (poll name newBuild st).
Proof. unfold poll. settled_auto. Qed.

(** Two passes that differ in the flags [inQueue] and [building] alone
    make the same requests and end alike. *)
Lemma poll_flags name newBuild st st2 w :
  weird st = weird st2 ->
  match poll name newBuild st w, poll name newBuild st2 w with
  | (Ret (inl r), w1), (Ret (inl r2), w2) => r = r2 /\ w1 = w2
  | (Ret (inr s), w1), (Ret (inr s2), w2) => weird s = weird s2 /\ w1 = w2
  | (Panicked p, w1), (Panicked p2, w2) => p = p2 /\ w1 = w2
  | _, _ => False
  end.
Proof.
  intros Hw. unfold poll, bind, ret, deref, throw, io.time_Sleep. rewrite <- Hw.
  pose proof (settled_GetBuildInfo name newBuild w) as SB.
  destruct (GetBuildInfo name newBuild w) as [[[binfo err] | p |] w1];
    cbn in SB; [| auto | congruence].
  destruct err as [e |].
  - pose proof (settled_GetInfo name w1) as SI.
    destruct (GetInfo name w1) as [[[info err] | p |] w2];
      cbn in SI; [| auto | congruence].
    destruct err as [e' |]; [auto |].
    destruct info as [info |]; [| auto]. cbn.
    destruct (weird st) eqn:Ws, (InQueue info),
      (GoInt.add (LastBuild info) 1 =? newBuild), (inQueue st), (inQueue st2);
      cbn; auto; split; congruence.
  - destruct binfo as [b |]; [| auto]. cbn.
    destruct (Build.Building b), (building st), (building st2); cbn; auto;
      split; congruence.
Qed.

Lemma wait_loop_flags_eq fuel name newBuild st st2 w :
  weird st = weird st2 ->
  wait_loop fuel name newBuild st w = wait_loop fuel name newBuild st2 w.
Proof.
  revert st st2 w. induction fuel as [| fuel IH]; intros st st2 w Hw;
    [reflexivity |].
  cbn [wait_loop]. unfold bind.
  pose proof (poll_flags name newBuild st st2 w Hw) as P.
  destruct (poll name newBuild st w) as [[[r | s] | p |] w1];
    destruct (poll name newBuild st2 w) as [[[r2 | s2] | p2 |] w2];
    try contradiction; destruct P as [P ->];
    [subst r2; reflexivity | apply IH, P | subst p2; reflexivity].
Qed.

(** X10: the flags [inQueue] and [building] have no influence on what the wait
    loop requests, returns or panics with. *)
Theorem wait_loop_flags (fuel : nat) (name : string) (newBuild : Z)
  (a b a' b' c : bool) (w : World) :
  wait_loop fuel name newBuild (mkFlags a b c) w
  = wait_loop fuel name newBuild (mkFlags a' b' c) w.
Proof. apply wait_loop_flags_eq. reflexivity. Qed.

Lemma wait_loop_Running_split k name newBuild st w w' :
  wait_loop k name newBuild st w = (Running, w') ->
  forall m, wait_loop (k + m) name newBuild st w = wait_loop m name newBuild st w'.
Proof.
  revert st w. induction k as [| k IH]; intros st w H m.
  - cbn in H. injection H as <-. reflexivity.
  - cbn [wait_loop Nat.add] in *. unfold bind in *.
    pose proof (settled_poll name newBuild st w) as SP.
    destruct (poll name newBuild st w) as [[[r | st'] | p |] w1] eqn:E;
      cbn in SP; try discriminate H; [| congruence].
    rewrite (IH _ _ H m). apply wait_loop_flags_eq.
    apply (poll_keeps_weird _ _ _ _ _ _ E).
Qed.

Lemma wait_loop_done_stable k name newBuild st w o w' :
  wait_loop k name newBuild st w = (o, w') -> o <> Running ->
  forall m, wait_loop (k + m) name newBuild st w = (o, w').
Proof.
  revert st w. induction k as [| k IH]; intros st w H Ho m.
  - cbn in H. injection H as <- _. congruence.
  - cbn [wait_loop Nat.add] in *. unfold bind in *.
    destruct (poll name newBuild st w) as [[[r | st'] | p |] w1]; auto.
Qed.

(** More fuel changes nothing once the loop has returned or panicked, and
    a loop that has run out of fuel after [k] passes goes on, given [m]
    more, as a fresh loop of [m] passes in the world it has reached. *)
Theorem wait_loop_fuel (k : nat) (name : string) (newBuild : Z) (st : flags)
  (w w' : World) :
  (forall r, wait_loop k name newBuild st w = (Ret r, w') ->
     forall m, wait_loop (k + m) name newBuild st w = (Ret r, w')) /\
  (forall p, wait_loop k name newBuild st w = (Panicked p, w') ->
     forall m, wait_loop (k + m) name newBuild st w = (Panicked p, w')) /\
  (wait_loop k name newBuild st w = (Running, w') ->
     forall m, wait_loop (k + m) name newBuild st w
               = wait_loop m name newBuild st w').
Proof.
  repeat split.
  - intros r H m. apply (wait_loop_done_stable _ _ _ _ _ _ _ H). discriminate.
  - intros p H m. apply (wait_loop_done_stable _ _ _ _ _ _ _ H). discriminate.
  - apply wait_loop_Running_split.
Qed.

Lemma wait_loop_fuel_witness :
  wait_loop (1 + 3) "demo" 5 (mkFlags false false false) idle_world
  = (Ret (Some Sample.succeeded5, None),
     extend idle_world [EvGet Sample.build5_url]).
Proof.
  destruct (wait_loop_fuel 1 "demo" 5 (mkFlags false false false) idle_world
              (extend idle_world [EvGet Sample.build5_url])) as [H _].
  apply (H (Some Sample.succeeded5, None) eq_refl 3%nat).
Defined.

(** ** Failures inside the wait *)

(** X12: when the target build cannot be fetched and the job cannot be fetched
    either, the wait ends at once with the error of the job fetch: no
    sleep, no further pass. *)
Theorem wait_loop_job_fetch_fails (fuel : nat) (name : string) (newBuild : Z)
  (st : flags) (w w1 w2 : World) (binfo : option JenkinsBuildInfo)
  (r : option JenkinsInfo) (e1 e : error) :
  GetBuildInfo name newBuild w = (Ret (binfo, Some e1), w1) ->
  GetInfo name w1 = (Ret (r, Some e), w2) ->
  wait_loop (S fuel) name newBuild st w = (Ret (None, Some e), w2).
Proof.
  intros EB EI. cbn [wait_loop]. unfold poll.
  unfold bind at 1 2. rewrite EB. unfold bind at 1. rewrite EI. reflexivity.
Qed.

Lemma wait_loop_job_fetch_fails_witness :
  wait_loop 3 "demo" 6 (mkFlags false false false) offline_world
  = (Ret (None, Some (net_error "connection refused")),
     extend offline_world [EvGet Sample.build6_url; EvGet Sample.job_url]).
Proof.
  apply (wait_loop_job_fetch_fails 2 "demo" 6 (mkFlags false false false)
           offline_world (extend offline_world [EvGet Sample.build6_url])
           (extend offline_world [EvGet Sample.build6_url; EvGet Sample.job_url])
           None None (net_error "connection refused")
           (net_error "connection refused")); reflexivity.
Defined.

(** X13: a fetch that returns neither a record nor an error (the document was
    [null]) makes [DoBuild] panic on the nil pointer: at the job fetch
    before the trigger, at the fetch of the target build in the loop, and
    at the job fetch in the loop. *)
Theorem nil_record_panics (name : string) (w w1 : World) :
  (GetInfo name w = (Ret (None, None), w1) ->
   forall fuel params wait,
     DoBuild fuel name params wait w = (Panicked NilDereference, w1)) /\
  (forall newBuild,
     GetBuildInfo name newBuild w = (Ret (None, None), w1) ->
     forall fuel st,
       wait_loop (S fuel) name newBuild st w = (Panicked NilDereference, w1)) /\
  (forall newBuild binfo e w2,
     GetBuildInfo name newBuild w = (Ret (binfo, Some e), w1) ->
     GetInfo name w1 = (Ret (None, None), w2) ->
     forall fuel st,
       wait_loop (S fuel) name newBuild st w = (Panicked NilDereference, w2)).
Proof.
  repeat split.
  - intros E fuel params wait. unfold DoBuild, bind. rewrite E. reflexivity.
  - intros newBuild E fuel st. cbn [wait_loop]. unfold poll.
    unfold bind at 1 2. rewrite E. reflexivity.
  - intros newBuild binfo e w2 EB EI fuel st. cbn [wait_loop]. unfold poll.
    unfold bind at 1 2. rewrite EB. unfold bind at 1. rewrite EI. reflexivity.
Qed.

Lemma nil_record_panics_witness :
  DoBuild 0 "demo" "env=prod" false null_world
  = (Panicked NilDereference, extend null_world [EvGet Sample.job_url]).
Proof.
  destruct (nil_record_panics "demo" null_world
              (extend null_world [EvGet Sample.job_url])) as [H _].
  apply (H eq_refl).
Defined.

(** ** What [DoBuild] may ask *)

Lemma trace_extend w l : trace (extend w l) = (trace w ++ l)%list.
Proof. reflexivity. Qed.

Lemma writes_app t l : writes (t ++ l) = (writes t ++ writes l)%list.
Proof. unfold writes. apply List.filter_app. Qed.

Lemma passive_run {A} (m : M A) w :
  passive m ->
  exists l, snd (m w) = extend w l /\ posts l = 0%nat /\ writes l = [].
Proof.
  intros Hm. destruct (Hm w) as (l & E & Q). exists l.
  auto using quiet_posts, quiet_writes.
Qed.

Lemma post_effect name action params w :
  exists l, snd (post name action params w) = extend w l /\
            (posts l <= 1)%nat /\ writes l = [].
Proof.
  unfold post, bind, io.server, io.http_PostForm. cbn.
  destruct (url.ParseQuery params) as [form [e |]]; cbn.
  - exists []. rewrite extend_nil. cbn. auto.
  - exists [EvPostForm (trigger_url (JENKINS_SERVER w) name) form].
    destruct (on_PostForm w (now w) _ form); cbn; auto.
Qed.

(** X14: whatever the server answers and however long it runs, a call of
    [DoBuild] sends at most one trigger request and asks nothing of the
    file system. *)
Theorem DoBuild_at_most_one_post (fuel : nat) (name params : string)
  (wait : bool) (w : World) :
  let w' := snd (DoBuild fuel name params wait w) in
  (posts (trace w) <= posts (trace w') <= S (posts (trace w)))%nat /\
  writes (trace w') = writes (trace w).
Proof.
  cbn zeta.
  assert (G : exists l, snd (DoBuild fuel name params wait w) = extend w l /\
                        (posts l <= 1)%nat /\ writes l = []).
  { unfold DoBuild. unfold bind at 1.
    destruct (passive_run (GetInfo name) w (passive_GetInfo name))
      as (l1 & E1 & P1 & W1).
    destruct (GetInfo name w) as [[[info err] | p |] w1]; cbn in E1; subst w1;
      try (exists l1; cbn; split; [reflexivity | split; [lia | assumption]]).
    destruct err as [e |];
      [exists l1; cbn; split; [reflexivity | split; [lia | assumption]] |].
    destruct info as [info |]; cbn;
      [| exists l1; cbn; split; [reflexivity | split; [lia | assumption]]].
    unfold bind at 1.
    assert (T : exists l2,
               snd ((if InQueue info then ret None
                     else post name "buildWithParameters" params) (extend w l1))
               = extend (extend w l1) l2 /\ (posts l2 <= 1)%nat /\ writes l2 = []).
    { destruct (InQueue info); [| apply post_effect].
      exists []. rewrite extend_nil. cbn. auto. }
    destruct T as (l2 & E2 & P2 & W2).
    destruct ((if InQueue info then ret None
               else post name "buildWithParameters" params) (extend w l1))
      as [[err | p |] w2]; cbn in E2; subst w2; rewrite extend_extend;
      try (exists (l1 ++ l2)%list; cbn; rewrite posts_app, writes_app, W1, W2;
           split; [reflexivity | split; [lia | reflexivity]]).
    destruct err as [e |];
      [exists (l1 ++ l2)%list; cbn; rewrite posts_app, writes_app, W1, W2;
       split; [reflexivity | split; [lia | reflexivity]] |].
    destruct wait; cbn;
      [| exists (l1 ++ l2)%list; cbn; rewrite posts_app, writes_app, W1, W2;
         split; [reflexivity | split; [lia | reflexivity]]].
    destruct (passive_run _ (extend w (l1 ++ l2))
                (passive_await fuel name info (GoInt.add (LastBuild info) 1)))
      as (l3 & E3 & P3 & W3).
    rewrite E3, extend_extend. exists ((l1 ++ l2) ++ l3)%list.
    rewrite !posts_app, !writes_app, W1, W2, W3.
    split; [reflexivity | split; [lia | reflexivity]]. }
  destruct G as (l & -> & P & W). rewrite trace_extend, posts_app, writes_app, W.
  rewrite app_nil_r. split; [lia | reflexivity].
Qed.

(** X15: when the last stable build cannot be fetched, [DoBuild] with [wait]
    returns the error "Couldn't fetch last stable build info" in place of
    the cause, although the trigger request has been sent. *)
Theorem DoBuild_stable_build_unavailable (fuel : nat) (name params : string)
  (w w1 w3 : World) (info : JenkinsInfo) (form : url.Values)
  (status : Z) (body : Body) (r : option JenkinsBuildInfo) (e : error) :
  GetInfo name w = (Ret (Some info, None), w1) ->
  InQueue info = false ->
  url.ParseQuery params = (form, None) ->
  on_PostForm w1 (now w1) (trigger_url (JENKINS_SERVER w1) name) form
  = HttpResponse status body ->
  GetBuildInfo name (LastStableBuild info)
    (emit (EvPostForm (trigger_url (JENKINS_SERVER w1) name) form) w1)
  = (Ret (r, Some e), w3) ->
  DoBuild fuel name params true w
  = (Ret (None, Some (errors_New "Couldn't fetch last stable build info")), w3)
  /\ posts (trace w3) = S (posts (trace w)).
Proof.
  intros EI Hq Hp Ho EB. split.
  - unfold DoBuild. rewrite (bind_eq_Ret _ _ _ _ _ EI). cbn. rewrite Hq.
    rewrite (bind_eq_Ret _ _ _ _ _ (post_parsed _ _ _ _ w1 Hp)).
    cbn zeta. rewrite Ho. cbn. unfold await.
    rewrite (bind_eq_Ret _ _ _ _ _ EB). reflexivity.
  - pose proof (passive_posts _ w (passive_GetInfo name)) as P1.
    rewrite EI in P1. cbn in P1.
    pose proof (passive_posts _
                  (emit (EvPostForm (trigger_url (JENKINS_SERVER w1) name) form) w1)
                  (passive_GetBuildInfo name (LastStableBuild info))) as P2.
    rewrite EB in P2. cbn [snd] in P2. rewrite P2, posts_emit_post. congruence.
Qed.

Lemma DoBuild_stable_build_unavailable_witness :
  DoBuild 3 "demo" "env=prod" true no_stable_world
  = (Ret (None, Some (errors_New "Couldn't fetch last stable build info")),
     extend no_stable_world Sample.triggered).
Proof.
  refine (proj1 (DoBuild_stable_build_unavailable 3 "demo" "env=prod"
                   no_stable_world
                   (extend no_stable_world [EvGet Sample.job_url])
                   (extend no_stable_world Sample.triggered)
                   (Sample.job_info false) (fst (url.ParseQuery "env=prod"))
                   200 (RawBody "") None
                   (errors_New ("Bad status: 404 from " +:+ Sample.build5_url))
                   _ _ _ _ _)); reflexivity.
Defined.

(** ** Downloading artifacts *)

Lemma getRemote_served w u body :
  serves w u body ->
  getRemote u w = (Ret (Some body, None), emit (EvGet u) w).
Proof.
  intros Hs. unfold getRemote, bind, io.http_Get. cbn. rewrite (Hs (now w)).
  reflexivity.
Qed.

Lemma range_download_all name id output bodies todo artifacts w :
  fs_accepts w ->
  (forall outpath inpath, In (outpath, inpath) todo ->
     serves w (artifact_url (JENKINS_SERVER w) name id inpath)
            (bodies (artifact_url (JENKINS_SERVER w) name id inpath))) ->
  range_download name id output todo artifacts w
  = (Ret (artifacts, None),
     extend w (concat (map (download_events (JENKINS_SERVER w) name id output
                              bodies) todo))).
Proof.
  revert w. induction todo as [| [outpath inpath] todo IH]; intros w Hfs Hs;
    cbn [range_download map concat].
  - rewrite extend_nil. reflexivity.
  - unfold bind at 1. cbn [io.server].
    rewrite (bind_eq_Ret _ _ _ _ _
               (getRemote_served _ _ _ (Hs outpath inpath (or_introl eq_refl)))).
    cbn beta iota zeta. unfold bind at 1, io.os_MkdirAll.
    cbn [on_MkdirAll emit]. rewrite (proj1 (Hfs _ _)).
    cbn [fmap option_fmap option_map].
    unfold bind at 1, io.os_Create.
    cbn [on_Create emit]. rewrite (proj2 (Hfs _ _)).
    cbn [fmap option_fmap option_map deref].
    rewrite bind_ret_l. unfold bind at 1, io.Copy.
    rewrite !emit_extend, !extend_extend.
    rewrite IH.
    + rewrite extend_extend. reflexivity.
    + intros t p. apply Hfs.
    + intros o i Hin t. apply (Hs o i (or_intror Hin) t).
Qed.

(** X16: when the build succeeded, the file system accepts every request and
    the server has every artifact, then in whatever order the entries of
    the artifact map are taken, the download loop asks, for each entry in
    turn, for the artifact, for the directory of its output path under the
    output directory, for the file, and for the copy of the artifact into
    the file, and it returns no error; [GetArtifacts] is that loop, run
    after the resolution and the fetch of the build, in one such order. *)
Theorem GetArtifacts_downloads_all (name : string) (id id' : Z)
  (output : string) (bodies : string -> Body) (w w1 w2 : World)
  (info : JenkinsBuildInfo) :
  sanitizeID name id w = (Ret (id', None), w1) ->
  GetBuildInfo name id' w1 = (Ret (Some info, None), w2) ->
  Build.Result info = "SUCCESS" ->
  fs_accepts w2 ->
  (forall k v, Build.Artifacts info !! k = Some v ->
     serves w2 (artifact_url (JENKINS_SERVER w2) name id' v)
            (bodies (artifact_url (JENKINS_SERVER w2) name id' v))) ->
  (forall todo, Permutation todo (map_to_list (Build.Artifacts info)) ->
     range_download name id' output todo [] w2
     = (Ret ([], None),
        extend w2 (concat (map (download_events (JENKINS_SERVER w2) name id'
                                  output bodies) todo)))) /\
  (exists todo, Permutation todo (map_to_list (Build.Artifacts info)) /\
     GetArtifacts name id output w
     = (Ret ([], None),
        extend w2 (concat (map (download_events (JENKINS_SERVER w2) name id'
                                  output bodies) todo)))).
Proof.
  intros ES EB Hr Hfs Hs.
  assert (L : forall todo, Permutation todo (map_to_list (Build.Artifacts info)) ->
     range_download name id' output todo [] w2
     = (Ret ([], None),
        extend w2 (concat (map (download_events (JENKINS_SERVER w2) name id'
                                  output bodies) todo)))).
  { intros todo Hperm. apply range_download_all; [exact Hfs |].
    intros outpath inpath Hin. apply (Hs outpath inpath).
    apply elem_of_map_to_list, list_elem_of_In.
    apply (Permutation_in _ Hperm), Hin. }
  split; [exact L |].
  exists (map_to_list (Build.Artifacts info)). split; [reflexivity |].
  unfold GetArtifacts.
  rewrite (bind_eq_Ret _ _ _ _ _ ES). cbn beta iota.
  rewrite (bind_eq_Ret _ _ _ _ _ EB). cbn. rewrite Hr. cbn.
  apply L. reflexivity.
Qed.

Lemma GetArtifacts_downloads_all_witness :
  range_download "demo" 5 "dest"
    [("out/b.txt", "target/b.txt"); ("out/a.txt", "target/a.txt")] []
    (extend two_artifacts_world [EvGet Sample.build5_url])
  = (Ret ([], None),
     extend (extend two_artifacts_world [EvGet Sample.build5_url])
       [EvGet artifact5b_url; EvMkdirAll "dest/out";
        EvCreate "dest/out/b.txt"; EvCopy "dest/out/b.txt" (RawBody "world");
        EvGet Sample.artifact5_url; EvMkdirAll "dest/out";
        EvCreate "dest/out/a.txt"; EvCopy "dest/out/a.txt" (RawBody "hello")]).
Proof.
  destruct (GetArtifacts_downloads_all "demo" 5 5 "dest" two_bodies
              two_artifacts_world two_artifacts_world
              (extend two_artifacts_world [EvGet Sample.build5_url])
              succeeded5_two) as [H _].
  - reflexivity.
  - reflexivity.
  - reflexivity.
  - intros t p. split; reflexivity.
  - intros k v H t.
    destruct (decide (k = "out/b.txt")) as [-> | Hb].
    + cbn in H. rewrite lookup_insert_eq in H. injection H as <-. reflexivity.
    + cbn in H. rewrite lookup_insert_ne in H by congruence.
      destruct (decide (k = "out/a.txt")) as [-> | Ha].
      * rewrite lookup_insert_eq in H. injection H as <-. reflexivity.
      * rewrite lookup_insert_ne in H by congruence.
        rewrite lookup_empty in H. discriminate.
  - apply (H [("out/b.txt", "target/b.txt"); ("out/a.txt", "target/a.txt")]).
    vm_compute. first [apply perm_swap | reflexivity].
Defined.

(** X17: the download loop stops at the first failure and returns its error:
    when the artifact cannot be fetched, nothing is asked of the file
    system for it; when its directory cannot be made, no file is created;
    when its file cannot be created, nothing is copied; and in each case
    the remaining artifacts are not asked for. *)
Theorem download_stops_at_failure (name : string) (id : Z) (output : string)
  (outpath inpath : string) (rest : list (string * string))
  (artifacts : list string) (w w1 : World) :
  let theurl := artifact_url (JENKINS_SERVER w) name id inpath in
  let dir := path.Join [output; path.Dir outpath] in
  let file := path.Join [output; outpath] in
  let loop := range_download name id output ((outpath, inpath) :: rest)
                artifacts w in
  (forall r e, getRemote theurl w = (Ret (r, Some e), w1) ->
     loop = (Ret (artifacts, Some e), w1)) /\
  (forall body msg, getRemote theurl w = (Ret (Some body, None), w1) ->
     on_MkdirAll w1 (now w1) dir = Some msg ->
     loop = (Ret (artifacts, Some (os_error msg)), extend w1 [EvMkdirAll dir])) /\
  (forall body msg, getRemote theurl w = (Ret (Some body, None), w1) ->
     on_MkdirAll w1 (now w1) dir = None ->
     on_Create w1 (S (now w1)) file = Some msg ->
     loop = (Ret (artifacts, Some (os_error msg)),
             extend w1 [EvMkdirAll dir; EvCreate file])).
Proof.
  cbn zeta. cbn [range_download]. repeat split.
  - intros r e E. unfold bind at 1. cbn [io.server].
    rewrite (bind_eq_Ret _ _ _ _ _ E). reflexivity.
  - intros body msg E Hm. unfold bind at 1. cbn [io.server].
    rewrite (bind_eq_Ret _ _ _ _ _ E). cbn beta iota zeta.
    unfold bind at 1, io.os_MkdirAll. rewrite Hm. reflexivity.
  - intros body msg E Hm Hc. unfold bind at 1. cbn [io.server].
    rewrite (bind_eq_Ret _ _ _ _ _ E).
    cbn beta iota zeta. unfold bind at 1, io.os_MkdirAll. rewrite Hm.
    cbn [fmap option_fmap option_map]. unfold bind at 1, io.os_Create.
    unfold now in *. cbn [on_Create emit trace].
    rewrite length_app, Nat.add_1_r. rewrite Hc.
    cbn [fmap option_fmap option_map]. unfold ret.
    rewrite !emit_extend, extend_extend. reflexivity.
Qed.

Lemma download_stops_at_failure_witness :
  range_download "demo" 5 "dest"
    [("out/a.txt", "target/a.txt"); ("out/b.txt", "target/b.txt")] []
    readonly_world
  = (Ret ([], Some (os_error "read-only file system")),
     extend (extend readonly_world [EvGet Sample.artifact5_url])
            [EvMkdirAll "dest/out"]).
Proof.
  destruct (download_stops_at_failure "demo" 5 "dest" "out/a.txt" "target/a.txt"
              [("out/b.txt", "target/b.txt")] [] readonly_world
              (extend readonly_world [EvGet Sample.artifact5_url])) as (_ & H & _).
  apply (H (RawBody "hello") "read-only file system"); reflexivity.
Defined.

Lemma Join_drop_empty l : path.Join (l ++ [""]) = path.Join l.
Proof.
  unfold path.Join. rewrite filter_app. cbn.
  destruct (decide ("" ≠ "")) as [H | _]; [destruct (H eq_refl) |].
  rewrite app_nil_r. reflexivity.
Qed.

(** X18: an artifact name that the build does not have is no error for
    [GetArtifactReader]: it asks for the artifact directory of the build. *)
Theorem GetArtifactReader_unknown_artifact (name : string) (id : Z)
  (artifact : string) (w w1 : World) (info : JenkinsBuildInfo) :
  GetBuildInfo name id w = (Ret (Some info, None), w1) ->
  Build.Result info = "SUCCESS" ->
  Build.Artifacts info !! artifact = None ->
  GetArtifactReader name id artifact w
  = getRemote ("http://" +:+ path.Join [JENKINS_SERVER w1; "job";
                                        path.Join [name; GoInt.Itoa id];
                                        "artifact"]) w1.
Proof.
  intros E Hr Ha. unfold GetArtifactReader. rewrite (bind_eq_Ret _ _ _ _ _ E).
  cbn. rewrite Hr, Ha. cbn. unfold artifact_url.
  rewrite <- (Join_drop_empty [JENKINS_SERVER w1; "job";
                               path.Join [name; GoInt.Itoa id]; "artifact"]).
  reflexivity.
Qed.

Lemma GetArtifactReader_unknown_artifact_witness :
  GetArtifactReader "demo" 5 "out/missing.txt" artifact_world
  = getRemote "http://alfred-jenkins.sv2:8080/job/demo/5/artifact"
      (extend artifact_world [EvGet Sample.build5_url]).
Proof.
  apply (GetArtifactReader_unknown_artifact "demo" 5 "out/missing.txt"
           artifact_world (extend artifact_world [EvGet Sample.build5_url])
           Sample.succeeded5); reflexivity.
Defined.

(** ** What artifact retrieval may ask *)

Section Confined.

Variable P : Event -> bool.

Lemma confined_ret {A} (a : A) : confined P (ret a).
Proof. intros w. exists []. cbn. rewrite extend_nil. auto. Qed.

Lemma confined_throw {A} p : confined P (@throw A p).
Proof. intros w. exists []. cbn. rewrite extend_nil. auto. Qed.

Lemma confined_bind {A B} (m : M A) (k : A -> M B) :
  confined P m -> (forall a, confined P (k a)) -> confined P (bind m k).
Proof.
  intros Hm Hk w. destruct (Hm w) as (l1 & E1 & Q1). unfold bind.
  destruct (m w) as [[a | p |] w1]; cbn in E1; subst w1;
    try solve [exists l1; cbn; auto].
  destruct (Hk a (extend w l1)) as (l2 & E2 & Q2).
  exists (l1 ++ l2)%list. rewrite E2, extend_extend, forallb_app, Q1, Q2. auto.
Qed.

Lemma confined_deref {A} (p : option A) : confined P (deref p).
Proof. destruct p; [apply confined_ret | apply confined_throw]. Qed.

Lemma confined_must {A} (p : option A) : confined P (must p).
Proof. destruct p; [apply confined_ret | apply confined_throw]. Qed.

Lemma confined_server : confined P io.server.
Proof. intros w. exists []. cbn. rewrite extend_nil. auto. Qed.

Lemma confined_emit {A} (f : World -> A) (e : Event) :
  P e = true -> confined P (fun w => (Ret (f w), emit e w)).
Proof. intros He w. exists [e]. cbn. rewrite He. auto. Qed.

Hypothesis P_get : forall u, P (EvGet u) = true.

Lemma confined_http_Get u : confined P (io.http_Get u).
Proof. apply (confined_emit (fun w => on_Get w (now w) u)), P_get. Qed.

Ltac confined_step :=
  match goal with
  | |- confined _ (bind _ _) => apply confined_bind; [| intros ?]
  | |- confined _ (ret _) => apply confined_ret
  | |- confined _ (throw _) => apply confined_throw
  | |- confined _ (deref _) => apply confined_deref
  | |- confined _ (must _) => apply confined_must
  | |- confined _ io.server => apply confined_server
  | |- confined _ (io.http_Get _) => apply confined_http_Get
  | |- confined _ (match ?x with _ => _ end) => destruct x
  | |- confined _ _ => solve [auto]
  end.

Ltac confined_auto := repeat (confined_step; cbn beta iota zeta).

Lemma confined_getRemote u : confined P (getRemote u).
Proof. unfold getRemote. confined_auto. Qed.

Lemma confined_get name id : confined P (get name id).
Proof. unfold get. pose proof confined_getRemote. confined_auto. Qed.

Lemma confined_GetInfo name : confined P (GetInfo name).
Proof. unfold GetInfo. pose proof confined_get. confined_auto. Qed.

Lemma confined_sanitizeID name id : confined P (sanitizeID name id).
Proof. unfold sanitizeID. pose proof confined_GetInfo. confined_auto. Qed.

Lemma confined_range_artifacts l acc : confined P (range_artifacts l acc).
Proof.
  revert acc. induction l as [| a l IH]; intros acc; cbn [range_artifacts];
    confined_auto.
Qed.

Lemma confined_GetBuildInfo name id : confined P (GetBuildInfo name id).
Proof.
  unfold GetBuildInfo, decode_JenkinsBuildInfo.
  pose proof confined_sanitizeID. pose proof confined_get.
  pose proof confined_range_artifacts. confined_auto.
Qed.

Lemma confined_GetArtifactReader name id artifact :
  confined P (GetArtifactReader name id artifact).
Proof.
  unfold GetArtifactReader. pose proof confined_GetBuildInfo.
  pose proof confined_getRemote. confined_auto.
Qed.

Hypothesis P_mkdir : forall d, P (EvMkdirAll d) = true.
Hypothesis P_create : forall f, P (EvCreate f) = true.
Hypothesis P_copy : forall f b, P (EvCopy f b) = true.

Lemma confined_range_download name id output todo artifacts :
  confined P (range_download name id output todo artifacts).
Proof.
  induction todo as [| [outpath inpath] todo IH]; cbn [range_download].
  - apply confined_ret.
  - pose proof confined_getRemote.
    assert (confined P (io.os_MkdirAll (path.Join [output; path.Dir outpath])))
      by (apply (confined_emit (fun w => os_error <$> on_MkdirAll w (now w) _)),
            P_mkdir).
    assert (confined P (io.os_Create (path.Join [output; outpath])))
      by (apply (confined_emit (fun w => os_error <$> on_Create w (now w) _)),
            P_create).
    assert (forall b, confined P (io.Copy (path.Join [output; outpath]) b))
      by (intros b; apply (confined_emit (fun _ => tt)), P_copy).
    confined_auto.
Qed.

Lemma confined_GetArtifacts name id output :
  confined P (GetArtifacts name id output).
Proof.
  unfold GetArtifacts. pose proof confined_sanitizeID.
  pose proof confined_GetBuildInfo. pose proof confined_range_download.
  confined_auto.
Qed.

End Confined.

(** X19: artifact retrieval never triggers a build and never sleeps: whatever
    the server and the file system answer, [GetArtifactReader] makes
    nothing but GET requests, and [GetArtifacts] nothing but GET requests
    and requests to make a directory, create a file and copy into it. *)
Theorem retrieval_confined (name : string) (id : Z) :
  (forall artifact, confined is_get (GetArtifactReader name id artifact)) /\
  (forall output, confined no_post_no_sleep (GetArtifacts name id output)).
Proof.
  split.
  - intros artifact. apply confined_GetArtifactReader. reflexivity.
  - intros output. apply confined_GetArtifacts; reflexivity.
Qed.

(** ** The two copies of [GetInfo] *)

Lemma must_Ret_inv {A} (x : option A) w a w' :
  must x w = (Ret a, w') -> x = Some a /\ w' = w.
Proof.
  destruct x as [y |]; cbn; intros E; [| discriminate].
  injection E as -> ->. auto.
Qed.

Lemma string_must_ok v s :
  Assert.string_must v = Some s -> fst (Assert.string_ok v) = s.
Proof. destruct v; cbn; congruence. Qed.

Lemma bool_must_ok v b :
  Assert.bool_must v = Some b -> fst (Assert.bool_ok v) = b.
Proof. destruct v; cbn; congruence. Qed.

Lemma float64_must_ok v f :
  Assert.float64_must v = Some f -> fst (Assert.float64_ok v) = f.
Proof. destruct v; cbn; congruence. Qed.

Lemma map_must_ok v m :
  Assert.map_must v = Some m -> fst (Assert.map_ok v) = m.
Proof. destruct v; cbn; congruence. Qed.

(** The number and the address of [lastBuild] or [lastStableBuild] as the
    strict copy reads them, against the lenient reading. *)
Lemma strict_build_ref v w num u w' :
  match v with
  | INil => ret (0, "")
  | _ =>
      lastBuildSafe <- must (Assert.map_must v) ;;
      numF64 <- must (Assert.float64_must (index lastBuildSafe "number")) ;;
      url <- must (Assert.string_must (index lastBuildSafe "url")) ;;
      ret (GoInt.truncate numF64, url)
  end w = (Ret (num, u), w') ->
  w' = w /\
  match v with
  | INil => (0, "")
  | _ =>
      (GoInt.truncate
         (fst (Assert.float64_ok (index (fst (Assert.map_ok v)) "number"))),
       fst (Assert.string_ok (index (fst (Assert.map_ok v)) "url")))
  end = (num, u).
Proof.
  intros H.
  destruct v as [| b | f | s | l | o];
    try (apply ret_Ret_inv in H as [H ->]; auto; fail);
    try (apply bind_Ret_inv in H as (x & w1 & E & _);
         apply must_Ret_inv in E as [E _]; discriminate E).
  apply bind_Ret_inv in H as (m & w1 & E1 & H).
  apply must_Ret_inv in E1 as [E1 ->].
  apply bind_Ret_inv in H as (f & w2 & E2 & H).
  apply must_Ret_inv in E2 as [E2 ->].
  apply bind_Ret_inv in H as (s & w3 & E3 & H).
  apply must_Ret_inv in E3 as [E3 ->].
  apply ret_Ret_inv in H as [H ->]. split; [reflexivity |].
  rewrite (map_must_ok _ _ E1), (float64_must_ok _ _ E2),
    (string_must_ok _ _ E3). exact H.
Qed.

(** X20: whenever [GetInfo] of the second source file returns, without a panic,
    [GetInfo] of the first returns the same in the same world: the lenient
    decoder agrees with the strict one on every document the strict one
    accepts. *)
Theorem GetInfo_lenient_extends_strict (name : string) (w w' : World)
  (r : option JenkinsInfo * option error) :
  Part000.GetInfo name w = (Ret r, w') -> GetInfo name w = (Ret r, w').
Proof.
  unfold Part000.GetInfo, GetInfo. intros H.
  apply bind_Ret_inv in H as ([json err] & w1 & E & H).
  rewrite (bind_eq_Ret _ _ _ _ _ E). cbn beta iota.
  destruct (negb (is_nil err) || is_nil json); [exact H |].
  apply bind_Ret_inv in H as (n & w2 & E1 & H).
  apply must_Ret_inv in E1 as [E1 ->].
  apply bind_Ret_inv in H as (d & w2 & E2 & H).
  apply must_Ret_inv in E2 as [E2 ->].
  apply bind_Ret_inv in H as (u & w2 & E3 & H).
  apply must_Ret_inv in E3 as [E3 ->].
  apply bind_Ret_inv in H as (b & w2 & E4 & H).
  apply must_Ret_inv in E4 as [E4 ->].
  apply bind_Ret_inv in H as (q & w2 & E5 & H).
  apply must_Ret_inv in E5 as [E5 ->].
  cbn zeta in H.
  apply bind_Ret_inv in H as ([lb lbu] & w2 & E6 & H).
  apply strict_build_ref in E6 as [-> E6].
  apply bind_Ret_inv in H as ([ls lsu] & w2 & E7 & H).
  apply strict_build_ref in E7 as [-> E7].
  rewrite <- H. unfold ret. do 3 f_equal.
  unfold decode_JenkinsInfo.
  rewrite (string_must_ok _ _ E1), (string_must_ok _ _ E2),
    (string_must_ok _ _ E3), (bool_must_ok _ _ E4), (bool_must_ok _ _ E5).
  rewrite E6, E7. reflexivity.
Qed.

Lemma GetInfo_lenient_extends_strict_witness :
  GetInfo "demo" full_world
  = (Ret (Some (mkJenkinsInfo "demo" "a job" "http://ci/job/demo/" true false
                  5 "http://ci/job/demo/5/" 0 ""), None),
     extend full_world [EvGet Sample.job_url]).
Proof.
  apply (GetInfo_lenient_extends_strict "demo" full_world). reflexivity.
Defined.

(** ** The addresses *)

Lemma append_nil_l t : "" +:+ t = t.
Proof. reflexivity. Qed.

Lemma append_cons a s t : String a s +:+ t = String a (s +:+ t).
Proof. reflexivity. Qed.

Lemma split_on_no_slash s :
  no_slash s = true -> path.split_on "/" s = [s].
Proof.
  induction s as [| a s IH]; cbn [no_slash path.split_on]; [reflexivity |].
  intros [Ha Hs]%andb_prop. apply negb_true_iff in Ha. rewrite Ha, (IH Hs).
  reflexivity.
Qed.

Lemma split_on_app s rest :
  no_slash s = true ->
  path.split_on "/" (s +:+ "/" +:+ rest) = s :: path.split_on "/" rest.
Proof.
  induction s as [| a s IH]; cbn [no_slash]; intros H.
  - rewrite append_nil_l, append_cons, append_nil_l. reflexivity.
  - apply andb_prop in H as [Ha Hs]. apply negb_true_iff in Ha.
    rewrite append_cons. cbn [path.split_on]. rewrite Ha, (IH Hs). reflexivity.
Qed.

Lemma plain_no_slash s : plain s = true -> no_slash s = true.
Proof. unfold plain. intros H. apply andb_prop in H as [_ H]. exact H. Qed.

Lemma split_on_join l :
  l <> [] -> forallb plain l = true ->
  path.split_on "/" (path.join_with "/" l) = l.
Proof.
  induction l as [| x [| y r] IH]; intros Hne Hp; [contradiction | |].
  - cbn in *. apply andb_prop in Hp as [Hx _].
    apply split_on_no_slash, plain_no_slash, Hx.
  - cbn [forallb] in Hp. apply andb_prop in Hp as [Hx Hr].
    change (path.join_with "/" (x :: y :: r))
      with (x +:+ "/" +:+ path.join_with "/" (y :: r)).
    rewrite split_on_app by (apply plain_no_slash, Hx).
    rewrite IH; [reflexivity | discriminate | exact Hr].
Qed.

Lemma clean_step_plain kept x :
  plain x = true -> path.clean_step false kept x = x :: kept.
Proof.
  unfold plain, path.clean_step. intros H.
  apply andb_prop in H as [H _]. apply andb_prop in H as [H H3].
  apply andb_prop in H as [H1 H2].
  apply negb_true_iff in H1, H2, H3. rewrite H1, H2, H3. reflexivity.
Qed.

Lemma fold_clean_plain l acc :
  forallb plain l = true ->
  fold_left (path.clean_step false) l acc = (rev l ++ acc)%list.
Proof.
  revert acc. induction l as [| x l IH]; intros acc Hp; [reflexivity |].
  cbn [forallb] in Hp. apply andb_prop in Hp as [Hx Hl].
  cbn [fold_left rev]. rewrite clean_step_plain by exact Hx.
  rewrite IH by exact Hl. rewrite <- app_assoc. reflexivity.
Qed.

Lemma rooted_plain x r :
  plain x = true -> path.rooted (path.join_with "/" (x :: r)) = false.
Proof.
  intros Hx. destruct x as [| a x'].
  - discriminate Hx.
  - apply plain_no_slash in Hx. cbn [no_slash] in Hx.
    apply andb_prop in Hx as [Ha _]. apply negb_true_iff in Ha.
    assert (E : exists t, path.join_with "/" (String a x' :: r) = String a t).
    { destruct r; cbn [path.join_with]; [eauto |]. rewrite append_cons. eauto. }
    destruct E as [t ->]. cbn.
    destruct a as [[] [] [] [] [] [] [] []]; try reflexivity. discriminate Ha.
Qed.

(** [path.Clean] leaves a path made of plain elements as it is. *)
Lemma Clean_plain l :
  l <> [] -> forallb plain l = true ->
  path.Clean (path.join_with "/" l) = path.join_with "/" l.
Proof.
  intros Hne Hp. unfold path.Clean.
  destruct l as [| x r]; [contradiction |].
  rewrite (rooted_plain x r) by (cbn in Hp; apply andb_prop in Hp; tauto).
  rewrite split_on_join by assumption.
  rewrite fold_clean_plain by exact Hp.
  rewrite app_nil_r, rev_involutive. reflexivity.
Qed.

Lemma join_with_not_empty x r :
  plain x = true -> path.join_with "/" (x :: r) <> "".
Proof.
  intros Hx. destruct x as [| a x']; [discriminate Hx |].
  destruct r; cbn [path.join_with]; [discriminate |].
  rewrite append_cons. discriminate.
Qed.

Lemma append_assoc_s (a b c : string) : (a +:+ b) +:+ c = a +:+ (b +:+ c).
Proof.
  induction a as [| x a IH]; [reflexivity |].
  rewrite !append_cons, IH. reflexivity.
Qed.

Lemma join_with_app l1 l2 :
  l1 <> [] -> l2 <> [] ->
  path.join_with "/" (l1 ++ l2)
  = path.join_with "/" l1 +:+ "/" +:+ path.join_with "/" l2.
Proof.
  intros H1 H2. induction l1 as [| x [| y r] IH]; [contradiction | |].
  - destruct l2; [contradiction | reflexivity].
  - change (path.join_with "/" ((x :: y :: r) ++ l2))
      with (x +:+ "/" +:+ path.join_with "/" ((y :: r) ++ l2)).
    rewrite IH by discriminate.
    change (path.join_with "/" (x :: y :: r))
      with (x +:+ "/" +:+ path.join_with "/" (y :: r)).
    rewrite !append_assoc_s. reflexivity.
Qed.

(** [path.Join] of elements that are each a path of plain elements is
    their concatenation with slashes. *)
Lemma Join_plain (ls : list (list string)) :
  ls <> [] ->
  Forall (fun l => l <> [] /\ forallb plain l = true) ls ->
  path.Join (map (path.join_with "/") ls) = path.join_with "/" (concat ls).
Proof.
  intros Hne Hall. unfold path.Join.
  assert (F : filter (fun e => e ≠ "") (map (path.join_with "/") ls)
              = map (path.join_with "/") ls).
  { clear Hne. induction Hall as [| l ls [Hl Hp] _ IH]; [reflexivity |].
    cbn [map]. rewrite filter_cons. destruct l as [| x r]; [contradiction |].
    destruct (decide (path.join_with "/" (x :: r) ≠ "")) as [_ | Hn].
    - rewrite IH. reflexivity.
    - exfalso. apply Hn, join_with_not_empty.
      cbn in Hp. apply andb_prop in Hp. tauto. }
  rewrite F.
  assert (J : path.join_with "/" (map (path.join_with "/") ls)
              = path.join_with "/" (concat ls) /\ concat ls <> []
                /\ forallb plain (concat ls) = true).
  { clear F. induction Hall as [| l ls [Hl Hp] Hrest IH]; [contradiction |].
    destruct ls as [| l2 ls].
    - cbn. rewrite app_nil_r. auto.
    - destruct IH as (IH1 & IH2 & IH3); [discriminate |].
      change (concat (l :: l2 :: ls)) with (l ++ concat (l2 :: ls))%list.
      split; [| split].
      + change (path.join_with "/" (map (path.join_with "/") (l :: l2 :: ls)))
          with (path.join_with "/" l +:+ "/"
                +:+ path.join_with "/" (map (path.join_with "/") (l2 :: ls))).
        rewrite IH1, join_with_app by assumption. reflexivity.
      + destruct l; [contradiction | discriminate].
      + rewrite forallb_app, Hp, IH3. reflexivity. }
  destruct J as (J1 & J2 & J3).
  destruct (map (path.join_with "/") ls) as [| e es] eqn:E.
  { destruct ls; [contradiction | discriminate E]. }
  rewrite J1. apply Clean_plain; assumption.
Qed.

Lemma is_digit_pretty_N_char x : is_digit (pretty_N_char x) = true.
Proof.
  unfold pretty_N_char.
  repeat match goal with
         | |- context [match ?y with _ => _ end] => destruct y
         end; reflexivity.
Qed.

Lemma digits_pretty_N_go x s :
  digits s = true -> digits (pretty_N_go x s) = true.
Proof.
  revert s. induction (N.lt_wf_0 x) as [x _ IH]; intros s Hs.
  destruct (N.eq_dec x 0%N) as [-> | Hx].
  - rewrite pretty_N_go_0. exact Hs.
  - rewrite pretty_N_go_step by lia. apply IH.
    + apply N.div_lt; lia.
    + cbn [digits]. rewrite is_digit_pretty_N_char, Hs. reflexivity.
Qed.

Lemma pretty_N_go_not_empty x s : s <> "" -> pretty_N_go x s <> "".
Proof.
  revert s. induction (N.lt_wf_0 x) as [x _ IH]; intros s Hs.
  destruct (N.eq_dec x 0%N) as [-> | Hx].
  - rewrite pretty_N_go_0. exact Hs.
  - rewrite pretty_N_go_step by lia. apply IH; [apply N.div_lt; lia |].
    discriminate.
Qed.

Lemma digits_plain s : digits s = true -> s <> "" -> plain s = true.
Proof.
  intros Hd Hne. unfold plain.
  assert (N : no_slash s = true).
  { clear Hne. induction s as [| a s IH]; [reflexivity |].
    cbn [digits no_slash] in *. apply andb_prop in Hd as [Ha Hs].
    rewrite (IH Hs), andb_true_r.
    destruct (Ascii.eqb_spec a "/") as [-> | _]; [discriminate Ha | reflexivity]. }
  rewrite N, andb_true_r.
  destruct s as [| a s]; [contradiction |]. cbn [digits] in Hd.
  apply andb_prop in Hd as [Ha _].
  destruct (String.eqb_spec (String a s) "") as [E | _]; [discriminate E |].
  destruct (String.eqb_spec (String a s) ".") as [E | _];
    [injection E as -> _; discriminate Ha |].
  destruct (String.eqb_spec (String a s) "..") as [E | _];
    [injection E as -> _; discriminate Ha |].
  reflexivity.
Qed.

(** The decimal form of a positive build number is a plain path element. *)
Lemma Itoa_plain id : 0 < id -> plain (GoInt.Itoa id) = true.
Proof.
  intros Hpos. destruct id as [| p | p]; try lia.
  unfold GoInt.Itoa, pretty, pretty_Z, pretty, pretty_positive, pretty, pretty_N.
  destruct (decide (N.pos p = 0%N)) as [E | _]; [discriminate E |].
  apply digits_plain.
  - apply digits_pretty_N_go. reflexivity.
  - rewrite pretty_N_go_step by lia. apply pretty_N_go_not_empty. discriminate.
Qed.

(** X21: for a server address and a job name that are plain path elements, the
    addresses are those of the Jenkins API: the job document at
    [/job/<name>/api/json], the document of build [id > 0] at
    [/job/<name>/<id>/api/json], the trigger at
    [/job/<name>/buildWithParameters?token=<name>-token], and an artifact
    whose remote path is made of plain elements at
    [/job/<name>/<id>/artifact/<path>]. *)
Theorem addresses (server name : string) (id : Z) :
  plain server = true -> plain name = true ->
  (id <= 0 ->
   api_url server name id
   = "http://" +:+ path.join_with "/" [server; "job"; name; "api"; "json"]) /\
  (0 < id ->
   api_url server name id
   = "http://" +:+ path.join_with "/"
                     [server; "job"; name; GoInt.Itoa id; "api"; "json"]) /\
  trigger_url server name
  = "http://" +:+ path.join_with "/" [server; "job"; name; "buildWithParameters"]
      +:+ "?token=" +:+ name +:+ "-token" /\
  (0 < id -> forall segments,
     segments <> [] -> forallb plain segments = true ->
     artifact_url server name id (path.join_with "/" segments)
     = "http://" +:+ path.join_with "/"
                       ([server; "job"; name; GoInt.Itoa id; "artifact"]
                          ++ segments)).
Proof.
  intros Hs Hn.
  assert (NameId : 0 < id ->
            path.Join [name; GoInt.Itoa id]
            = path.join_with "/" [name; GoInt.Itoa id]).
  { intros Hpos.
    apply (Join_plain [[name]; [GoInt.Itoa id]]); [discriminate |].
    repeat constructor; try discriminate; cbn;
      rewrite ?Hn, ?(Itoa_plain id Hpos); reflexivity. }
  repeat split.
  - intros Hle. unfold api_url. destruct (Z.ltb_spec 0 id); [lia |].
    f_equal. apply (Join_plain [[server]; ["job"]; [name]; ["api"]; ["json"]]);
      [discriminate |].
    repeat constructor; try discriminate; cbn; rewrite ?Hs, ?Hn; reflexivity.
  - intros Hpos. unfold api_url. destruct (Z.ltb_spec 0 id); [| lia].
    f_equal. rewrite (NameId Hpos).
    apply (Join_plain [[server]; ["job"]; [name; GoInt.Itoa id]; ["api"]; ["json"]]);
      [discriminate |].
    repeat constructor; try discriminate; cbn;
      rewrite ?Hs, ?Hn, ?(Itoa_plain id Hpos); reflexivity.
  - unfold trigger_url. do 2 f_equal.
    apply (Join_plain [[server]; ["job"]; [name]; ["buildWithParameters"]]);
      [discriminate |].
    repeat constructor; try discriminate; cbn; rewrite ?Hs, ?Hn; reflexivity.
  - intros Hpos segments Hne Hp. unfold artifact_url. f_equal.
    rewrite (NameId Hpos).
    etransitivity;
      [apply (Join_plain [[server]; ["job"]; [name; GoInt.Itoa id];
                          ["artifact"]; segments]); [discriminate |]
      | cbn [concat app]; rewrite app_nil_r; reflexivity].
    repeat constructor; try discriminate; try assumption; cbn;
      rewrite ?Hs, ?Hn, ?(Itoa_plain id Hpos); reflexivity.
Qed.

Lemma addresses_witness :
  api_url DEFAULT_SERVER "demo" 5
  = "http://" +:+ path.join_with "/"
                    [DEFAULT_SERVER; "job"; "demo"; GoInt.Itoa 5; "api"; "json"].
Proof.
  destruct (addresses DEFAULT_SERVER "demo" 5 eq_refl eq_refl) as (_ & H & _).
  apply H. lia.
Defined.

(** ** More on the wait loop and the fetches *)

(** X11: when the loop has run [k] passes without returning and the next fetch
    of the target build finds it finished, the loop returns that build
    with any fuel beyond [k]. *)
Theorem wait_loop_returns_when_finished (k m : nat) (name : string)
  (newBuild : Z) (st : flags) (w w' w'' : World) (b : JenkinsBuildInfo) :
  wait_loop k name newBuild st w = (Running, w') ->
  GetBuildInfo name newBuild w' = (Ret (Some b, None), w'') ->
  Build.Building b = false ->
  wait_loop (k + S m) name newBuild st w = (Ret (Some b, None), w'').
Proof.
  intros Hk EB Hb. rewrite (wait_loop_Running_split _ _ _ _ _ _ Hk (S m)).
  cbn [wait_loop]. unfold poll. unfold bind at 1 2. rewrite EB. cbn.
  rewrite Hb. reflexivity.
Qed.

Lemma wait_loop_returns_when_finished_witness :
  wait_loop (3 + 1) "demo" 6 (mkFlags false false false)
    (extend Scenario.world Sample.triggered)
  = (Ret (Some Scenario.finished6, None),
     extend Scenario.world Scenario.requests).
Proof.
  apply (wait_loop_returns_when_finished 3 0 "demo" 6
           (mkFlags false false false)
           (extend Scenario.world Sample.triggered)
           (extend Scenario.world
              (Sample.triggered
                 ++ [EvGet Sample.build6_url; EvGet Sample.job_url; EvSleep 1000;
                     EvGet Sample.build6_url; EvGet Sample.job_url; EvSleep 1000;
                     EvGet Sample.build6_url; EvSleep 1000])%list));
    reflexivity.
Defined.

(** X22: for a literal identifier [GetBuildInfo] makes exactly one request, the
    GET for the document at the address of that identifier, whether it
    returns or panics. *)
Theorem GetBuildInfo_literal_one_request (name : string) (id : Z) (w : World) :
  id <> -1 -> id <> -2 ->
  snd (GetBuildInfo name id w)
  = emit (EvGet (api_url (JENKINS_SERVER w) name id)) w.
Proof.
  intros H1 H2. unfold GetBuildInfo.
  rewrite (bind_eq_Ret _ _ _ _ _ (sanitizeID_literal name id w H1 H2)).
  cbn beta iota. rewrite (bind_eq_Ret _ _ _ _ _ (get_run name id w)).
  destruct (fetched _ _) as [json err].
  destruct (negb (is_nil err) || is_nil json); [reflexivity |].
  unfold bind.
  destruct (decode_JenkinsBuildInfo_run json
              (emit (EvGet (api_url (JENKINS_SERVER w) name id)) w)) as [Hok Hbad].
  destruct (forallb is_object (fst (Assert.slice_ok (index json "artifacts")))).
  - destruct (Hok eq_refl) as [info ->]. reflexivity.
  - rewrite (Hbad eq_refl). reflexivity.
Qed.

Lemma GetBuildInfo_literal_one_request_witness :
  snd (GetBuildInfo "demo" 0 idle_world) = emit (EvGet Sample.job_url) idle_world.
Proof.
  apply (GetBuildInfo_literal_one_request "demo" 0 idle_world); lia.
Defined.

(** X23: [GetInfo] of the second source file panics on a job document that
    lacks one of the fields [name], [description], [url] (strings),
    [buildable], [inQueue] (booleans), or has it with another type. *)
Theorem strict_GetInfo_panics (name : string) (w : World)
  (m : gmap string iface) :
  on_Get w (now w) (api_url (JENKINS_SERVER w) name (-1))
  = HttpResponse 200 (JsonBody (IMap m)) ->
  Assert.string_must (index (Some m) "name") = None \/
  Assert.string_must (index (Some m) "description") = None \/
  Assert.string_must (index (Some m) "url") = None \/
  Assert.bool_must (index (Some m) "buildable") = None \/
  Assert.bool_must (index (Some m) "inQueue") = None ->
  Part000.GetInfo name w
  = (Panicked InterfaceConversion,
     emit (EvGet (api_url (JENKINS_SERVER w) name (-1))) w).
Proof.
  intros E H. unfold Part000.GetInfo.
  rewrite (bind_eq_Ret _ _ _ _ _ (get_run name (-1) w)). rewrite E.
  cbn [fetched Z.eqb Pos.eqb negb is_nil orb].
  destruct (Assert.string_must (index (Some m) "name")) as [a1 |];
    [| reflexivity].
  destruct (Assert.string_must (index (Some m) "description")) as [a2 |];
    [| reflexivity].
  destruct (Assert.string_must (index (Some m) "url")) as [a3 |];
    [| reflexivity].
  destruct (Assert.bool_must (index (Some m) "buildable")) as [a4 |];
    [| reflexivity].
  destruct (Assert.bool_must (index (Some m) "inQueue")) as [a5 |];
    [| reflexivity].
  destruct H as [H | [H | [H | [H | H]]]]; discriminate H.
Qed.

Lemma strict_GetInfo_panics_witness :
  Part000.GetInfo "demo" idle_world
  = (Panicked InterfaceConversion, emit (EvGet Sample.job_url) idle_world).
Proof.
  apply (strict_GetInfo_panics "demo" idle_world
           (list_to_map
              [("name", IString "demo"); ("inQueue", IBool false);
               ("lastBuild", Sample.obj [("number", Sample.num 5)]);
               ("lastStableBuild", Sample.obj [("number", Sample.num 5)])])).
  - reflexivity.
  - right. left. reflexivity.
Defined.

(** ** The resolver and the fetch on other identifiers *)

(** C10: every identifier other than -1 and -2 comes back unchanged, with
    no error and no request, zero and the negatives below -2 among them;
    and for such an identifier that is not positive the fetch that follows
    asks for the job document: [get] makes one request, the GET for the
    address of the job, which is the request [GetInfo] makes, and returns
    what the answer to it gives; [GetBuildInfo] makes that request and no
    other and, when the answer is a JSON object, decodes the job document
    as if it were a build. *)
Theorem sanitizeID_other_ids (name : string) (id : Z) (w : World) :
  id <> -1 -> id <> -2 ->
  sanitizeID name id w = (Ret (id, None), w) /\
  (id <= 0 ->
     let joburl :=
       "http://" +:+ path.Join [JENKINS_SERVER w; "job"; name; "api"; "json"] in
     api_url (JENKINS_SERVER w) name id = joburl /\
     get name id w = get name (-1) w /\
     get name id w
     = (Ret (fetched (on_Get w (now w) joburl) joburl), emit (EvGet joburl) w) /\
     snd (GetInfo name w) = emit (EvGet joburl) w /\
     snd (GetBuildInfo name id w) = emit (EvGet joburl) w /\
     (forall m,
        on_Get w (now w) joburl = HttpResponse 200 (JsonBody (IMap m)) ->
        GetInfo name w
        = (Ret (Some (decode_JenkinsInfo (Some m)), None),
           emit (EvGet joburl) w) /\
        GetBuildInfo name id w
        = bind (decode_JenkinsBuildInfo (Some m))
               (fun info => ret (Some info, None)) (emit (EvGet joburl) w))).
Proof.
  intros H1 H2.
  pose proof (sanitizeID_literal name id w H1 H2) as S.
  split; [exact S |]. intros Hle joburl.
  assert (U : api_url (JENKINS_SERVER w) name id = joburl).
  { unfold api_url. destruct (Z.ltb_spec 0 id); [lia | reflexivity]. }
  assert (G : get name id w
              = (Ret (fetched (on_Get w (now w) joburl) joburl),
                 emit (EvGet joburl) w)).
  { pose proof (get_run name id w) as R. cbn zeta in R. rewrite U in R. exact R. }
  assert (G1 : get name (-1) w
               = (Ret (fetched (on_Get w (now w) joburl) joburl),
                  emit (EvGet joburl) w)) by apply (get_run name (-1) w).
  assert (B : GetBuildInfo name id w
              = (let '(json, err) := fetched (on_Get w (now w) joburl) joburl in
                 if negb (is_nil err) || is_nil json then ret (None, err)
                 else bind (decode_JenkinsBuildInfo json)
                           (fun info => ret (Some info, None)))
                  (emit (EvGet joburl) w)).
  { unfold GetBuildInfo. rewrite (bind_eq_Ret _ _ _ _ _ S). cbn beta iota.
    rewrite (bind_eq_Ret _ _ _ _ _ G). reflexivity. }
  assert (I : GetInfo name w
              = (let '(json, err) := fetched (on_Get w (now w) joburl) joburl in
                 if negb (is_nil err) || is_nil json then ret (None, err)
                 else ret (Some (decode_JenkinsInfo json), None))
                  (emit (EvGet joburl) w)).
  { unfold GetInfo. rewrite (bind_eq_Ret _ _ _ _ _ G1). reflexivity. }
  split; [exact U |]. split; [congruence |]. split; [exact G |].
  split; [| split].
  - rewrite I. destruct (fetched _ _) as [json err].
    destruct (negb (is_nil err) || is_nil json); reflexivity.
  - rewrite B. destruct (fetched _ _) as [json err].
    destruct (negb (is_nil err) || is_nil json); [reflexivity |].
    unfold bind.
    destruct (decode_JenkinsBuildInfo_run json (emit (EvGet joburl) w))
      as [Hok Hbad].
    destruct (forallb is_object (fst (Assert.slice_ok (index json "artifacts")))).
    + destruct (Hok eq_refl) as [info ->]. reflexivity.
    + rewrite (Hbad eq_refl). reflexivity.
  - intros m Hm. rewrite I, B, Hm. split; reflexivity.
Qed.

Lemma sanitizeID_other_ids_witness :
  sanitizeID "demo" 0 idle_world = (Ret (0, None), idle_world) /\
  get "demo" 0 idle_world = get "demo" (-1) idle_world /\
  GetBuildInfo "demo" 0 idle_world
  = (Ret (Some (mkJenkinsBuildInfo "" 0 ∅ false (S754_zero false)
                  (S754_zero false) "BUILDING" (S754_zero false) ""), None),
     emit (EvGet Sample.job_url) idle_world).
Proof.
  destruct (sanitizeID_other_ids "demo" 0 idle_world) as [H1 H2]; [lia | lia |].
  destruct H2 as (_ & H3 & _ & _ & _ & H4); [lia |].
  split; [exact H1 | split; [exact H3 |]].
  exact (proj2 (H4 (default ∅ (fst (Assert.map_ok (Sample.job false))))
                   eq_refl)).
Defined.
